(** * Graphtage: the tree-diff driver and the XML element edit

  A shallow embedding of [graphtage/tree.py] (the [Edit] and [TreeNode]
  protocols, [explode_edits], [TreeNode.diff], [TreeNode.total_size]) and of
  [graphtage/xml.py] ([XMLElement], [XMLElementEdit]).

  Python objects are mutable; every method that can change its receiver is
  written in state-passing style and returns the receiver's new state next
  to its result. *)

From Stdlib Require Import String Ascii ZArith NArith List Bool Lia.
Import ListNotations.

Set Implicit Arguments.
Set Warnings "-register-all".
Open Scope Z_scope.

(** ** Python strings *)

(** A Python [str] is a sequence of Unicode code points. *)
Module PyStr.

Definition str := list N.

Definition of_string (s : string) : str :=
  map N_of_ascii (list_ascii_of_string s).

Definition len (s : str) : Z := Z.of_nat (List.length s).

Fixpoint eqb (s t : str) : bool :=
  match s, t with
  | [], [] => true
  | c :: s', d :: t' => N.eqb c d && eqb s' t'
  | _, _ => false
  end.

(** [str.isspace] on one code point: the characters [str.strip()] removes
    when called without argument. *)
Definition isspace (c : N) : bool :=
  ((9 <=? c) && (c <=? 13) || (28 <=? c) && (c <=? 32)
   || (c =? 133) || (c =? 160) || (c =? 5760)
   || (8192 <=? c) && (c <=? 8202)
   || (c =? 8232) || (c =? 8233) || (c =? 8239) || (c =? 8287)
   || (c =? 12288))%N.

Fixpoint lstrip (s : str) : str :=
  match s with
  | c :: s' => if isspace c then lstrip s' else s
  | [] => []
  end.

Definition rstrip (s : str) : str := rev (lstrip (rev s)).

Definition strip (s : str) : str := rstrip (lstrip s).

End PyStr.

(** ** Ranges ([graphtage/bounds.py], not part of the sources at hand) *)

(** Modelled from the spec: the class [Range] of [bounds.py], which is
    missing from the sources.  A closed integer interval with componentwise
    sum and the predicate [definitive] ([lo == hi]). *)
Record Range : Type := mkRange { lower_bound : Z; upper_bound : Z }.

Definition Range_add (a b : Range) : Range :=
  mkRange (lower_bound a + lower_bound b) (upper_bound a + upper_bound b).

Definition definitive (r : Range) : bool := lower_bound r =? upper_bound r.

Definition width (r : Range) : Z := upper_bound r - lower_bound r.

Infix "+r" := Range_add (at level 50, left associativity).

(** ** [tree.py]: the protocols *)

(** [class Edit(Bounded, Protocol)]: the methods the driver and the compound
  edits call on an edit.  [bounds] and [valid] only read the edit;
  [tighten_bounds] returns its answer and the edit as the call left it. *)
Class Edit (E : Type) : Type := {
  valid : E -> bool;
  bounds : E -> Range;
  tighten_bounds : E -> bool * E
}.

(** [class TreeNode]: an instance carries the attribute [_total_size] (the
  class attribute [None] until the first assignment) next to the attributes
  of its concrete class. *)
Record TreeNode (F : Type) : Type := mkTreeNode {
  _total_size : option Z;
  fields : F
}.

Section TreeNode_total_size.
Context {F : Type}.

(** The abstract method [calculate_total_size] of the concrete class. *)
Variable calculate_total_size : TreeNode F -> Z * TreeNode F.

(** The property [TreeNode.total_size]. *)
Definition total_size (self : TreeNode F) : Z * TreeNode F :=
  match _total_size self with
  | None =>
      let '(v, self') := calculate_total_size self in
      (v, mkTreeNode (Some v) (fields self'))
  | Some v => (v, self)
  end.
End TreeNode_total_size.

(** [TreeNode.diff]: the [while] loop.  [fuel] bounds the number of
  iterations; the result is the edit when the loop was left and the number
  of [tighten_bounds] calls made, [None] when the fuel ran out first. *)
Section Driver.
Context {E : Type} `{Edit E}.

Fixpoint tighten_loop (fuel : nat) (edit : E) : option (E * nat) :=
  match fuel with
  | O => None
  | S fuel' =>
      if valid edit then
        if negb (definitive (bounds edit)) then
          let '(narrowed, edit') := tighten_bounds edit in
          if narrowed then
            match tighten_loop fuel' edit' with
            | Some (final, calls) => Some (final, S calls)
            | None => None
            end
          else Some (edit', 1%nat)
        else Some (edit, 0%nat)
      else Some (edit, 0%nat)
  end.

(** The edit after [n] consecutive [tighten_bounds] calls. *)
Fixpoint tightened (n : nat) (edit : E) : E :=
  match n with
  | O => edit
  | S n' => tightened n' (snd (tighten_bounds edit))
  end.

Context {N : Type}.
(** [make_edited] and the abstract method [edits] of the node class. *)
Variable make_edited : N -> N.
Variable node_edits : N -> N -> E.

(** [TreeNode.diff] returns [ret]; the local variable [edit] is returned
    with it so that its final state can be observed. *)
Definition diff (fuel : nat) (self node : N) : option (N * E * nat) :=
  let ret := make_edited self in
  let edit := node_edits ret node in
  match tighten_loop fuel edit with
  | Some (final, calls) => Some (ret, final, calls)
  | None => None
  end.
End Driver.

(** ** Nodes *)

(** Modelled from the spec: [StringNode] of [graphtage.py], which is missing
    from the sources: a leaf holding a string ([object]) and the flag
    [quoted]; its size is the length of the string and [==] compares the
    strings as they are. *)
Record StringFields : Type := mkStringFields {
  object : PyStr.str;
  quoted : bool
}.

Definition StringNode : Type := TreeNode StringFields.

Definition StringNode_calculate_total_size (self : StringNode)
  : Z * StringNode :=
  (PyStr.len (object (fields self)), self).

Definition StringNode_eq (self other : StringNode) : bool :=
  PyStr.eqb (object (fields self)) (object (fields other)).

(** [DictNode] and [ListNode] live in [graphtage.py] too: their attributes,
    their [calculate_total_size] and their [__eq__] are parameters. *)
Class Containers : Type := {
  DictFields : Type;
  ListFields : Type;
  DictNode_calculate_total_size :
    TreeNode DictFields -> Z * TreeNode DictFields;
  ListNode_calculate_total_size :
    TreeNode ListFields -> Z * TreeNode ListFields;
  DictNode_eq : TreeNode DictFields -> TreeNode DictFields -> bool;
  ListNode_eq : TreeNode ListFields -> TreeNode ListFields -> bool;
  (** the state of an edit whose class is defined outside [xml.py] *)
  OtherState : Type
}.

Section Nodes.
Context `{Containers}.

Definition DictNode : Type := TreeNode DictFields.
Definition ListNode : Type := TreeNode ListFields.

(** The attributes [XMLElement.__init__] assigns. *)
Record XMLElementFields : Type := mkXMLElementFields {
  tag : StringNode;
  attrib : DictNode;
  text : option StringNode;
  _children : ListNode
}.

Definition XMLElement : Type := TreeNode XMLElementFields.

(** The nodes an [XMLElement] can be compared with or diffed against. *)
Inductive Node : Type :=
| StringN (n : StringNode)
| DictN (n : DictNode)
| ListN (n : ListNode)
| XMLN (n : XMLElement).

(** [XMLElement.calculate_total_size].  Reading [total_size] of a part fills
    that part's cache, so the parts are returned as the reads left them. *)
Definition XMLElement_calculate_total_size (self : XMLElement)
  : Z * XMLElement :=
  let f := fields self in
  let '(t_size, text') :=
    match text f with
    | None => (0, None)
    | Some t =>
        let '(v, t') := total_size StringNode_calculate_total_size t in
        (v, Some t')
    end in
  let '(tag_size, tag') :=
    total_size StringNode_calculate_total_size (tag f) in
  let '(attrib_size, attrib') :=
    total_size DictNode_calculate_total_size (attrib f) in
  let '(children_size, children') :=
    total_size ListNode_calculate_total_size (_children f) in
  (t_size + tag_size + attrib_size + children_size,
   mkTreeNode (_total_size self)
     (mkXMLElementFields tag' attrib' text' children')).

(** The text [XMLElement.__eq__] compares: stripped, [''] when absent. *)
Definition stripped_text (e : XMLElement) : PyStr.str :=
  match text (fields e) with
  | Some t => PyStr.strip (object (fields t))
  | None => []
  end.

(** [XMLElement.__eq__]. *)
Definition XMLElement_eq (self : XMLElement) (other : Node) : bool :=
  match other with
  | XMLN other =>
      let my_text := stripped_text self in
      let other_text := stripped_text other in
      StringNode_eq (tag (fields other)) (tag (fields self))
      && DictNode_eq (attrib (fields other)) (attrib (fields self))
      && PyStr.eqb other_text my_text
      && ListNode_eq (_children (fields other)) (_children (fields self))
  | _ => false
  end.

End Nodes.

(** ** [xml.py]: [XMLElementEdit] *)

Section XMLElementEdit.
Context `{Containers} {E : Type}.

(** The attributes of an [XMLElementEdit]; [from_node] and [to_node] are
    stored by [AbstractCompoundEdit.__init__]. *)
Record XMLElementEdit : Type := mkXMLElementEdit {
  from_node : XMLElement;
  to_node : XMLElement;
  tag_edit : E;
  attrib_edit : E;
  text_edit : option E;
  child_edit : E
}.

(** The methods of the sub-edits, whatever their classes. *)
Variable bounds : E -> Range.
Variable tighten_bounds : E -> bool * E.

(** [XMLElementEdit.bounds]. *)
Definition XMLElementEdit_bounds (self : XMLElementEdit) : Range :=
  let text_bounds :=
    match text_edit self with
    | Some te => bounds te
    | None => mkRange 0 0
    end in
  text_bounds +r bounds (tag_edit self) +r bounds (attrib_edit self)
  +r bounds (child_edit self).

(** [XMLElementEdit.edits]: the sub-edits in the order the generator yields
    them. *)
Definition XMLElementEdit_edits (self : XMLElementEdit) : list E :=
  [tag_edit self; attrib_edit self]
  ++ match text_edit self with
     | Some te => [te]
     | None => []
     end
  ++ [child_edit self].

(** [XMLElementEdit.tighten_bounds].  A sub-edit whose [tighten_bounds] was
    called is kept as the call left it, also when the call returned
    [False]. *)
Definition XMLElementEdit_tighten_bounds (self : XMLElementEdit)
  : bool * XMLElementEdit :=
  let '(r_tag, tag') := tighten_bounds (tag_edit self) in
  let self1 :=
    mkXMLElementEdit (from_node self) (to_node self) tag'
      (attrib_edit self) (text_edit self) (child_edit self) in
  if r_tag then (true, self1)
  else
    let '(r_text, text') :=
      match text_edit self1 with
      | Some te => let '(r, te') := tighten_bounds te in (r, Some te')
      | None => (false, None)
      end in
    let self2 :=
      mkXMLElementEdit (from_node self1) (to_node self1) (tag_edit self1)
        (attrib_edit self1) text' (child_edit self1) in
    if r_text then (true, self2)
    else
      let '(r_attrib, attrib') := tighten_bounds (attrib_edit self2) in
      let self3 :=
        mkXMLElementEdit (from_node self2) (to_node self2) (tag_edit self2)
          attrib' (text_edit self2) (child_edit self2) in
      if r_attrib then (true, self3)
      else
        let '(r_child, child') := tighten_bounds (child_edit self3) in
        let self4 :=
          mkXMLElementEdit (from_node self3) (to_node self3) (tag_edit self3)
            (attrib_edit self3) (text_edit self3) child' in
        if r_child then (true, self4) else (false, self4).

End XMLElementEdit.

Arguments XMLElementEdit {_} E.
Arguments mkXMLElementEdit {_ E}.

(** ** The edits an [XMLElement] produces *)

Section AnyEdit.
Context `{Containers}.

(** Every edit object that can occur below an [XMLElementEdit]: the
    primitives [Match], [Insert] and [Remove] of [edits.py], the
    [XMLElementEdit] itself, and the edits of the classes outside the sources
    ([StringEdit], [ListEdit], ...), each either plain or a [CompoundEdit]
    with its sub-edits. *)
Inductive AnyEdit : Type :=
| Match (match_from match_to : Node) (cost : Z)
| Insert (to_insert insert_into : Node)
| Remove (to_remove remove_from : Node)
| ElementEdit (e : XMLElementEdit AnyEdit)
| OtherEdit (s : OtherState)
| OtherCompoundEdit (s : OtherState) (sub_edits : list AnyEdit).

End AnyEdit.

(** The attributes, the methods and the [edits] of the classes outside the
    sources. *)
Class Collaborators `{Containers} : Type := {
  other_valid : OtherState -> bool;
  other_bounds : OtherState -> Range;
  other_tighten_bounds : OtherState -> bool * OtherState;
  compound_tighten_bounds :
    OtherState -> list AnyEdit -> bool * (OtherState * list AnyEdit);
  StringNode_edits : StringNode -> StringNode -> AnyEdit;
  DictNode_edits : DictNode -> DictNode -> AnyEdit;
  ListNode_edits : ListNode -> ListNode -> AnyEdit
}.

Section AnyEdit_methods.
Context `{Collaborators}.

(** The value [node.total_size] returns. *)
Definition Node_total_size (n : Node) : Z :=
  match n with
  | StringN s => fst (total_size StringNode_calculate_total_size s)
  | DictN d => fst (total_size DictNode_calculate_total_size d)
  | ListN l => fst (total_size ListNode_calculate_total_size l)
  | XMLN e => fst (total_size XMLElement_calculate_total_size e)
  end.

(** Modelled from the spec: [Match], [Insert] and [Remove] of [edits.py],
    which is missing from the sources.  [Match(a, b, cost)] has the bounds
    [[cost, cost]], [Remove(x)] and [Insert(y)] the size of their node, and
    their [tighten_bounds] does nothing and returns [False]. *)
Fixpoint AnyEdit_bounds (e : AnyEdit) : Range :=
  match e with
  | Match _ _ cost => mkRange cost cost
  | Insert y _ => mkRange (Node_total_size y) (Node_total_size y)
  | Remove x _ => mkRange (Node_total_size x) (Node_total_size x)
  | ElementEdit x => XMLElementEdit_bounds AnyEdit_bounds x
  | OtherEdit s => other_bounds s
  | OtherCompoundEdit s _ => other_bounds s
  end.

Fixpoint AnyEdit_tighten_bounds (e : AnyEdit) : bool * AnyEdit :=
  match e with
  | Match _ _ _ | Insert _ _ | Remove _ _ => (false, e)
  | ElementEdit x =>
      let '(r, x') := XMLElementEdit_tighten_bounds AnyEdit_tighten_bounds x in
      (r, ElementEdit x')
  | OtherEdit s =>
      let '(r, s') := other_tighten_bounds s in (r, OtherEdit s')
  | OtherCompoundEdit s subs =>
      let '(r, (s', subs')) := compound_tighten_bounds s subs in
      (r, OtherCompoundEdit s' subs')
  end.

(** Modelled from the spec: the flag [valid], kept by [AbstractEdit] in
    [edits.py]; nothing in the sources clears it. *)
Definition AnyEdit_valid (e : AnyEdit) : bool :=
  match e with
  | OtherEdit s | OtherCompoundEdit s _ => other_valid s
  | _ => true
  end.

#[export] Instance AnyEdit_Edit : Edit AnyEdit := {
  valid := AnyEdit_valid;
  bounds := AnyEdit_bounds;
  tighten_bounds := AnyEdit_tighten_bounds
}.

End AnyEdit_methods.

Section XMLElement_edits.
Context `{Collaborators}.

(** [XMLElementEdit.__init__]. *)
Definition XMLElementEdit_init (from_node to_node : XMLElement)
  : XMLElementEdit AnyEdit :=
  let tag_edit :=
    StringNode_edits (tag (fields from_node)) (tag (fields to_node)) in
  let attrib_edit :=
    DictNode_edits (attrib (fields from_node)) (attrib (fields to_node)) in
  let text_edit :=
    match text (fields from_node), text (fields to_node) with
    | Some from_text, Some to_text =>
        Some (StringNode_edits from_text to_text)
    | None, Some to_text =>
        Some (Insert (StringN to_text) (XMLN from_node))
    | Some from_text, None =>
        Some (Remove (StringN from_text) (XMLN from_node))
    | None, None => None
    end in
  let child_edit :=
    ListNode_edits (_children (fields from_node))
      (_children (fields to_node)) in
  mkXMLElementEdit from_node to_node tag_edit attrib_edit text_edit
    child_edit.

(** [XMLElement.edits].  When [node] is no [XMLElement], [self == node] is
    [False] and [XMLElementEdit.__init__] fails reading [node.tag]: the
    result [None] stands for that exception. *)
Definition XMLElement_edits (self : XMLElement) (node : Node)
  : option AnyEdit :=
  if XMLElement_eq self node then Some (Match (XMLN self) node 0)
  else
    match node with
    | XMLN to_node => Some (ElementEdit (XMLElementEdit_init self to_node))
    | _ => None
    end.

(** ** [tree.py]: [explode_edits] *)

(** [isinstance(edit, CompoundEdit)], and then what [edit.edits()] yields. *)
Definition compound_edits (edit : AnyEdit) : option (list AnyEdit) :=
  match edit with
  | ElementEdit x => Some (XMLElementEdit_edits x)
  | OtherCompoundEdit _ subs => Some subs
  | _ => None
  end.

Definition is_compound (edit : AnyEdit) : bool :=
  match compound_edits edit with
  | Some _ => true
  | None => false
  end.

(** [explode_edits].  The recursion follows the structure of the edit, with
    the sub-edits of an [XMLElementEdit] taken in the order of
    [XMLElementEdit.edits]. *)
Fixpoint explode_edits (edit : AnyEdit) : list AnyEdit :=
  match edit with
  | ElementEdit (mkXMLElementEdit _ _ t a te c) =>
      explode_edits t ++ explode_edits a
      ++ match te with
         | Some e => explode_edits e
         | None => []
         end
      ++ explode_edits c
  | OtherCompoundEdit _ subs => List.concat (map explode_edits subs)
  | Match _ _ _ | Insert _ _ | Remove _ _ | OtherEdit _ => [edit]
  end.

End XMLElement_edits.

(** ** [xml.py]: the rest of [XMLElementEdit] and of [XMLElement] *)

Section XMLElementEdit_is_complete.
Context `{Containers} {E : Type}.

(** The method [is_complete] of the sub-edits. *)
Variable is_complete : E -> bool.

(** [XMLElementEdit.is_complete]. *)
Definition XMLElementEdit_is_complete (self : XMLElementEdit E) : bool :=
  is_complete (tag_edit self)
  && match text_edit self with
     | None => true
     | Some te => is_complete te
     end
  && is_complete (attrib_edit self)
  && is_complete (child_edit self).

End XMLElementEdit_is_complete.

Section XMLElement_children.
Context `{Containers}.

(** [XMLElement.children]. *)
Definition XMLElement_children (self : XMLElement) : list Node :=
  let ret := [StringN (tag (fields self)); DictN (attrib (fields self))] in
  match text (fields self) with
  | Some t => ret ++ [StringN t; ListN (_children (fields self))]
  | None => ret ++ [ListN (_children (fields self))]
  end.

(** [XMLElement.__len__]. *)
Definition XMLElement_len (self : XMLElement) : nat :=
  length (XMLElement_children self).

End XMLElement_children.

(** ** [xml.py]: [XMLElementObj] *)

(** [s.replace(old, new)] for a one-character [old]. *)
Definition replace_char (old : N) (new : PyStr.str) (s : PyStr.str)
  : PyStr.str :=
  flat_map (fun c => if N.eqb c old then new else [c]) s.

(** [html.escape(s)] of the Python library, with its default [quote=True]:
    five replacements in a row, the ampersand first. *)
Definition html_escape (s : PyStr.str) : PyStr.str :=
  let s := replace_char 38 (PyStr.of_string "&amp;") s in
  let s := replace_char 60 (PyStr.of_string "&lt;") s in
  let s := replace_char 62 (PyStr.of_string "&gt;") s in
  let s := replace_char 34 (PyStr.of_string "&quot;") s in
  let s := replace_char 39 (PyStr.of_string "&#x27;") s in
  s.

(** The attributes of an [XMLElementObj]; a [dict] is the list of its items
    in insertion order. *)
Inductive XMLElementObj : Type :=
| mkXMLElementObj (obj_tag : PyStr.str)
    (obj_attrib : list (PyStr.str * PyStr.str))
    (obj_text : option PyStr.str)
    (obj_children : option (list XMLElementObj)).

(** [not self.text] and [not self.children]: [None] and the empty value are
    both false in a condition. *)
Definition not_text (text : option PyStr.str) : bool :=
  match text with
  | None | Some [] => true
  | Some _ => false
  end.

Definition not_children (children : option (list XMLElementObj)) : bool :=
  match children with
  | None | Some [] => true
  | Some _ => false
  end.

(** One round of the loop over [self.attrib.items()] in
    [XMLElementObj.__str__]. *)
Definition XMLElementObj_str_item (ret : PyStr.str)
  (kv : PyStr.str * PyStr.str) : PyStr.str :=
  let val := replace_char 34 [92; 34]%N (html_escape (snd kv)) in
  ret ++ PyStr.of_string " " ++ fst kv ++ [61; 34]%N ++ val ++ [34]%N.

(** [XMLElementObj.__str__]. *)
Fixpoint XMLElementObj_str (self : XMLElementObj) : PyStr.str :=
  match self with
  | mkXMLElementObj tag attrib text children =>
      let ret := PyStr.of_string "<" ++ tag in
      let ret := fold_left XMLElementObj_str_item attrib ret in
      if not_text text && not_children children
      then ret ++ PyStr.of_string " />"
      else
        let ret := ret ++ PyStr.of_string ">" in
        let ret :=
          match text with
          | Some t => ret ++ html_escape t
          | None => ret
          end in
        let ret :=
          match children with
          | Some cs =>
              fold_left (fun ret child => ret ++ XMLElementObj_str child)
                cs ret
          | None => ret
          end in
        ret ++ PyStr.of_string "</" ++ tag ++ PyStr.of_string ">"
  end.

(** ** [xml.py]: [XMLElement.__init__] and [build_tree] *)

(** [node.quoted = q]. *)
Definition set_quoted (q : bool) (node : StringNode) : StringNode :=
  mkTreeNode (_total_size node) (mkStringFields (object (fields node)) q).

(** An [xml.etree.ElementTree.Element]: tag, attributes, text, and the child
    elements its iteration yields. *)
Inductive Element : Type :=
| mkElement (el_tag : PyStr.str) (el_attrib : list (PyStr.str * PyStr.str))
    (el_text : option PyStr.str) (el_children : list Element).

(** The argument of [build_tree]: a path, an [Element] or an
    [ElementTree], given by its root. *)
Inductive PathOrElementTree : Type :=
| APath (path : PyStr.str)
| AnElement (root : Element)
| AnElementTree (root : Element).

Section XMLElement_init.
Context `{Containers}.

(** What [__init__] and [build_tree] use of the classes outside the
    sources: the value of [quoted] a new [StringNode] starts with, the
    constructors of the containers, [make_edited], and the assignments to the
    attributes of [self.attrib], which touch nothing but that object. *)
Variable default_quoted : bool.
Variable DictNode_from_dict : list (StringNode * StringNode) -> DictNode.
Variable FixedKeyDictNode_from_dict :
  list (StringNode * StringNode) -> DictNode.
Variable DictNode_make_edited : DictNode -> DictNode.
Variable ListNode_make_edited : ListNode -> ListNode.
Variable ListNode_new : list XMLElement -> ListNode.
(** [start_symbol], [end_symbol], [delimiter], [delimiter_callback] *)
Variable set_symbols : DictNode -> DictNode.
(** [for key, _ in self.attrib.items(): key.quoted = False] *)
Variable unquote_keys : DictNode -> DictNode.
(** [start_symbol], [end_symbol], [delimiter_callback], a second time *)
Variable set_symbols_again : DictNode -> DictNode.
(** [ET.parse(path).getroot()], [None] for a [ParseError] *)
Variable ET_parse : PyStr.str -> option Element.

Definition StringNode_new (s : PyStr.str) : StringNode :=
  mkTreeNode None (mkStringFields s default_quoted).

(** [XMLElement.__init__]; [edited] is [isinstance(self, EditedTreeNode)]. *)
Definition XMLElement_init (edited : bool) (tag : StringNode)
  (attrib : option (list (StringNode * StringNode)))
  (text : option StringNode) (children : list XMLElement)
  (allow_key_edits : bool) : XMLElement :=
  let self_tag := set_quoted false tag in
  let attrib :=
    match attrib with
    | None => []
    | Some a => a
    end in
  let self_attrib :=
    if allow_key_edits then DictNode_from_dict attrib
    else FixedKeyDictNode_from_dict attrib in
  let self_attrib :=
    if edited then DictNode_make_edited self_attrib else self_attrib in
  let self_attrib := set_symbols self_attrib in
  let self_attrib := unquote_keys self_attrib in
  let self_text := option_map (set_quoted false) text in
  let self_children := ListNode_new children in
  let self_children :=
    if edited then ListNode_make_edited self_children else self_children in
  let self_attrib := set_symbols_again self_attrib in
  mkTreeNode None
    (mkXMLElementFields self_tag self_attrib self_text self_children).

(** [build_tree] on an [Element]. *)
Fixpoint build_tree_element (allow_key_edits : bool) (root : Element)
  : XMLElement :=
  match root with
  | mkElement root_tag root_attrib root_text root_children =>
      let text :=
        match root_text with
        | None | Some [] => None
        | Some t => Some (StringNode_new t)
        end in
      XMLElement_init false (StringNode_new root_tag)
        (Some (map (fun kv => (StringNode_new (fst kv),
                               StringNode_new (snd kv))) root_attrib))
        text
        (map (build_tree_element allow_key_edits) root_children)
        allow_key_edits
  end.

(** [build_tree]: [None] when [ET.parse] raises. *)
Definition build_tree (path_or_element_tree : PathOrElementTree)
  (allow_key_edits : bool) : option XMLElement :=
  match path_or_element_tree with
  | AnElement root => Some (build_tree_element allow_key_edits root)
  | APath path =>
      match ET_parse path with
      | Some root => Some (build_tree_element allow_key_edits root)
      | None => None
      end
  | AnElementTree root => Some (build_tree_element allow_key_edits root)
  end.

End XMLElement_init.

(** ** [yaml.py]: [YAMLStringFormatter] *)






(** ['\n' in s]. *)
Definition has_linefeed (s : PyStr.str) : bool := existsb (N.eqb 10) s.

Section YAMLStringFormatter.
(** The sub-edits [edit.edit_distance.edits()] yields: whether one is a
    [Match] or an [Insert], and the string [sub_edit.from_node.object]. *)
Context {SubEdit : Type}.
Variable is_Match : SubEdit -> bool.
Variable is_Insert : SubEdit -> bool.
Variable from_node_object : SubEdit -> PyStr.str.

(** The [for ... else] loop of [write_start_quote]: the value it leaves in
    [self.has_newline]. *)
Fixpoint scan_has_newline (sub_edits : list SubEdit) : bool :=
  match sub_edits with
  | [] => false
  | sub_edit :: rest =>
      if is_Match sub_edit && has_linefeed (from_node_object sub_edit)
      then true
      else if is_Insert sub_edit && has_linefeed (from_node_object sub_edit)
      then true
      else scan_has_newline rest
  end.



End YAMLStringFormatter.

(** ** What the specification says about tightening a compound edit *)

Section Tighten_first.
Context {E : Type}.
Variable bounds : E -> Range.
Variable tighten_bounds : E -> bool * E.

(** The specification's words: find the first sub-edit whose bounds are not
    definitive and tighten it once; the answer is that call's answer, and
    [False] when there is no such sub-edit. *)
Fixpoint tighten_first_non_definitive (subs : list E) : bool * list E :=
  match subs with
  | [] => (false, [])
  | e :: rest =>
      if definitive (bounds e) then
        let '(r, rest') := tighten_first_non_definitive rest in
        (r, e :: rest')
      else
        let '(r, e') := tighten_bounds e in (r, e' :: rest)
  end.

(** Call [tighten_bounds] on the sub-edits in turn until a call returns
    [True]. *)
Fixpoint tighten_until_narrowed (subs : list E) : bool * list E :=
  match subs with
  | [] => (false, [])
  | e :: rest =>
      let '(r, e') := tighten_bounds e in
      if r then (true, e' :: rest)
      else
        let '(r', rest') := tighten_until_narrowed rest in
        (r', e' :: rest')
  end.

(** A sub-edit that keeps the contract of [Bounded]: once its bounds are
    definitive [tighten_bounds] returns [False] and changes nothing, and
    before that it returns [True]. *)
Definition keeps_contract (e : E) : Prop :=
  tighten_bounds e
  = if definitive (bounds e) then (false, e)
    else (true, snd (tighten_bounds e)).

(** The order in which [XMLElementEdit.tighten_bounds] visits the
    sub-edits. *)
Definition tighten_order `{Containers} (self : XMLElementEdit E) : list E :=
  [tag_edit self]
  ++ match text_edit self with
     | Some te => [te]
     | None => []
     end
  ++ [attrib_edit self; child_edit self].

End Tighten_first.

(** ** Stand-ins for the missing classes, used by the examples *)

(** An edit that narrows its upper bound by one at each call until the
    bounds are definitive; its state is its range. *)
Definition countdown_tighten_bounds (r : Range) : bool * Range :=
  if lower_bound r <? upper_bound r
  then (true, mkRange (lower_bound r) (upper_bound r - 1))
  else (false, r).

Definition string_node (s : string) : StringNode :=
  mkTreeNode None (mkStringFields (PyStr.of_string s) false).

Definition item_eq (a b : StringNode * StringNode) : bool :=
  StringNode_eq (fst a) (fst b) && StringNode_eq (snd a) (snd b).

Definition item_size (a : StringNode * StringNode) : Z :=
  fst (total_size StringNode_calculate_total_size (fst a))
  + fst (total_size StringNode_calculate_total_size (snd a)).

(** Elements without child elements: a [DictNode] is the list of its
    key/value pairs, compared as a multiset, and the only [ListNode] is the
    empty one. *)
Definition leaf_containers : Containers := {|
  DictFields := list (StringNode * StringNode);
  ListFields := unit;
  DictNode_calculate_total_size := fun d =>
    (fold_right (fun kv acc => item_size kv + acc) 0 (fields d), d);
  ListNode_calculate_total_size := fun l => (0, l);
  DictNode_eq := fun a b =>
    (length (fields a) =? length (fields b))%nat
    && forallb (fun kv => existsb (item_eq kv) (fields b)) (fields a);
  ListNode_eq := fun _ _ => true;
  OtherState := Range
|}.

Definition leaf_StringNode_edits (a b : StringNode)
  : @AnyEdit leaf_containers :=
  if StringNode_eq a b
  then Match (StringN a) (StringN b) 0
  else
    let m := PyStr.len (object (fields a)) in
    let n := PyStr.len (object (fields b)) in
    @OtherEdit leaf_containers (mkRange (Z.abs (m - n)) (Z.max m n)).

Definition leaf_DictNode_edits (a b : @DictNode leaf_containers)
  : @AnyEdit leaf_containers :=
  if @DictNode_eq leaf_containers a b
  then Match (DictN a) (DictN b) 0
  else
    @OtherEdit leaf_containers
      (mkRange 0
         (fst (@DictNode_calculate_total_size leaf_containers a)
          + fst (@DictNode_calculate_total_size leaf_containers b))).

Definition leaf_collaborators : @Collaborators leaf_containers :=
  @Build_Collaborators leaf_containers
    (fun _ => true)
    (fun r : Range => r)
    countdown_tighten_bounds
    (fun (r : Range) subs =>
       let '(narrowed, r') := countdown_tighten_bounds r in
       (narrowed, (r', subs)))
    leaf_StringNode_edits
    leaf_DictNode_edits
    (fun a b => Match (ListN a) (ListN b) 0).

(** [<tag attrib...>text</tag>] without child elements. *)
Definition leaf_element (tag_name : string)
  (attributes : list (string * string)) (text_content : option string)
  : @XMLElement leaf_containers :=
  mkTreeNode None
    (@mkXMLElementFields leaf_containers
       (string_node tag_name)
       (mkTreeNode None
          (map (fun kv => (string_node (fst kv), string_node (snd kv)))
             attributes))
       (option_map string_node text_content)
       (mkTreeNode None tt)).

(** The methods of [AnyEdit] and the root edit of [diff] with these
    stand-ins; [make_edited] is taken to return the node itself. *)
Definition leaf_bounds : @AnyEdit leaf_containers -> Range :=
  @AnyEdit_bounds leaf_containers leaf_collaborators.

Definition leaf_tighten_bounds
  : @AnyEdit leaf_containers -> bool * @AnyEdit leaf_containers :=
  @AnyEdit_tighten_bounds leaf_containers leaf_collaborators.

Definition leaf_Edit : Edit (@AnyEdit leaf_containers) :=
  @AnyEdit_Edit leaf_containers leaf_collaborators.

Definition leaf_make_edited (n : @XMLElement leaf_containers)
  : @XMLElement leaf_containers := n.

Definition leaf_node_edits (a b : @XMLElement leaf_containers)
  : @AnyEdit leaf_containers :=
  match @XMLElement_edits leaf_containers leaf_collaborators a (XMLN b) with
  | Some e => e
  | None => Match (XMLN a) (XMLN b) 0
  end.

Definition leaf_total_size (n : @XMLElement leaf_containers) : Z :=
  fst (total_size (@XMLElement_calculate_total_size leaf_containers) n).

(** [<x a="1">ab</x>] and [<x a="22">abcd</x>]. *)
Definition x_ab : @XMLElement leaf_containers :=
  leaf_element "x" [("a", "1")]%string (Some "ab")%string.

Definition x_abcd : @XMLElement leaf_containers :=
  leaf_element "x" [("a", "22")]%string (Some "abcd")%string.

(** [<x>t</x>], [<x> t </x>], [<x />] and [<y>u</y>]. *)
Definition x_t : @XMLElement leaf_containers :=
  leaf_element "x" [] (Some "t")%string.

Definition x_t_spaced : @XMLElement leaf_containers :=
  leaf_element "x" [] (Some " t ")%string.

Definition x_empty : @XMLElement leaf_containers :=
  leaf_element "x" [] None.

Definition y_u : @XMLElement leaf_containers :=
  leaf_element "y" [] (Some "u")%string.

Definition x_ab_to_x_abcd : XMLElementEdit (@AnyEdit leaf_containers) :=
  @XMLElementEdit_init leaf_containers leaf_collaborators x_ab x_abcd.

(** Stand-ins for what [build_tree] uses: a [DictNode] made of the items
    given, keys unquoted by [__init__], and the empty [ListNode]. *)
Definition leaf_from_dict (items : list (StringNode * StringNode))
  : @DictNode leaf_containers :=
  mkTreeNode None items.

Definition leaf_unquote_keys (d : @DictNode leaf_containers)
  : @DictNode leaf_containers :=
  mkTreeNode (_total_size d)
    (map (fun kv => (set_quoted false (fst kv), snd kv)) (fields d)).

Definition leaf_build_tree_element : bool -> Element
                                     -> @XMLElement leaf_containers :=
  @build_tree_element leaf_containers true leaf_from_dict leaf_from_dict
    (fun d => d) (fun l => l) (fun _ => mkTreeNode None tt)
    (fun d => d) leaf_unquote_keys (fun d => d).

(** The XML elements [<x a="1"> </x>] and [<x a="1" />]. *)
Definition et_x_blank : Element :=
  mkElement (PyStr.of_string "x")
    [(PyStr.of_string "a", PyStr.of_string "1")]
    (Some (PyStr.of_string " ")) [].

Definition et_x_none : Element :=
  mkElement (PyStr.of_string "x")
    [(PyStr.of_string "a", PyStr.of_string "1")] None [].

(** Sub-edits of a string edit for the examples: the kind ([0] for a
    [Match], [1] for an [Insert], [2] for a [Remove]) and the string. *)
Definition demo_is_Match (e : nat * PyStr.str) : bool := Nat.eqb (fst e) 0.
Definition demo_is_Insert (e : nat * PyStr.str) : bool := Nat.eqb (fst e) 1.
Definition demo_object (e : nat * PyStr.str) : PyStr.str := snd e.

Definition demo_sub_edits : list (nat * PyStr.str) :=
  [(0%nat, PyStr.of_string "a"); (2%nat, [10%N]); (1%nat, [98; 10]%N)].

(** ** What the specification says about sizes and about the driver *)

(** The sum of the sizes of the parts of an element: tag, attributes, child
    list, and the text when there is one. *)
Definition parts_total_size `{Containers} (e : XMLElement) : Z :=
  fst (total_size StringNode_calculate_total_size (tag (fields e)))
  + fst (total_size DictNode_calculate_total_size (attrib (fields e)))
  + fst (total_size ListNode_calculate_total_size (_children (fields e)))
  + match text (fields e) with
    | Some t => fst (total_size StringNode_calculate_total_size t)
    | None => 0
    end.

Section Driver_spec.
Context {E : Type} `{Edit E}.

(** The loop stops after [calls] calls of [tighten_bounds] with the edit
    [final]: every call was made on a valid edit whose bounds were not
    definitive, every call but the last returned [True], and either the last
    call returned [False] or [final] is invalid or has definitive bounds. *)
Definition stops_after (edit : E) (calls : nat) (final : E) : Prop :=
  final = tightened calls edit
  /\ (forall k, (k < calls)%nat ->
        valid (tightened k edit) = true
        /\ definitive (bounds (tightened k edit)) = false)
  /\ (forall k, (S k < calls)%nat ->
        fst (tighten_bounds (tightened k edit)) = true)
  /\ ((exists k, calls = S k
                 /\ fst (tighten_bounds (tightened k edit)) = false)
      \/ valid final = false
      \/ definitive (bounds final) = true).

(** Both ends of the range lie between [0] and [limit]. *)
Definition within (limit : Z) (r : Range) : Prop :=
  0 <= lower_bound r <= limit /\ 0 <= upper_bound r <= limit.

(** A call of [tighten_bounds] on [edit] returns [False] or narrows the
    bounds by at least one. *)
Definition narrows_or_refuses (edit : E) : Prop :=
  fst (tighten_bounds edit) = false
  \/ width (bounds (snd (tighten_bounds edit))) <= width (bounds edit) - 1.

End Driver_spec.

(** ** Ranges that narrow *)

(** [lo <= hi]. *)
Definition well_formed (r : Range) : Prop := lower_bound r <= upper_bound r.

(** The range [new] lies inside the range [old]. *)
Definition narrower (new old : Range) : Prop :=
  lower_bound old <= lower_bound new /\ upper_bound new <= upper_bound old.

(** A call of [tighten_bounds] on [e] does not widen its bounds. *)
Definition never_widens {E : Type} (bounds : E -> Range)
  (tighten_bounds : E -> bool * E) (e : E) : Prop :=
  narrower (bounds (snd (tighten_bounds e))) (bounds e).

(** * Properties *)

(** ** [XMLElementEdit]: bounds and tightening *)

Section Tighten_first_facts.
Context {E : Type}.
Variable bounds : E -> Range.
Variable tighten_bounds : E -> bool * E.

(** On sub-edits that keep the contract, calling [tighten_bounds] in turn
    until one call returns [True] tightens the first sub-edit whose bounds
    are not definitive, and no other. *)
Lemma tighten_until_narrowed_contract (subs : list E) :
  Forall (keeps_contract bounds tighten_bounds) subs ->
  tighten_until_narrowed tighten_bounds subs
  = tighten_first_non_definitive bounds tighten_bounds subs.
Proof.
  induction 1 as [|e rest He _ IH]; simpl; [reflexivity|].
  unfold keeps_contract in He.
  destruct (tighten_bounds e) as [r e'] eqn:Ht. simpl in He.
  destruct (definitive (bounds e)).
  - injection He as -> ->. rewrite IH. reflexivity.
  - injection He as ->. reflexivity.
Qed.

End Tighten_first_facts.

Section XMLElementEdit_facts.
Context `{Containers} {E : Type}.
Variable bounds : E -> Range.
Variable tighten_bounds : E -> bool * E.

(** C5: the bounds of an [XMLElementEdit] are the sum of the bounds of the
    tag edit, the attribute edit, the child edit and the text edit, a missing
    text edit counting as the range [[0, 0]]. *)
Theorem XMLElementEdit_bounds_sum (self : XMLElementEdit E) :
  XMLElementEdit_bounds bounds self
  = bounds (tag_edit self) +r bounds (attrib_edit self)
    +r bounds (child_edit self)
    +r match text_edit self with
       | Some te => bounds te
       | None => mkRange 0 0
       end.
Proof.
  unfold XMLElementEdit_bounds.
  set (t := match text_edit self with Some te => bounds te | None => _ end).
  generalize (bounds (tag_edit self)) (bounds (attrib_edit self))
    (bounds (child_edit self)); intros a b c.
  unfold Range_add; simpl; f_equal; lia.
Qed.

(** [XMLElementEdit.tighten_bounds] visits the sub-edits in the order tag,
    text, attributes, children and stops at the first call that returns
    [True]. *)
Lemma XMLElementEdit_tighten_bounds_until (self : XMLElementEdit E) :
  let result := XMLElementEdit_tighten_bounds tighten_bounds self in
  (fst result, tighten_order (snd result))
  = tighten_until_narrowed tighten_bounds (tighten_order self).
Proof.
  destruct self as [f t tg at_ tx ch].
  unfold XMLElementEdit_tighten_bounds, tighten_order; simpl.
  destruct (tighten_bounds tg) as [[|] tg']; simpl; [reflexivity|].
  destruct tx as [te|]; simpl.
  - destruct (tighten_bounds te) as [[|] te']; simpl; [reflexivity|].
    destruct (tighten_bounds at_) as [[|] at']; simpl; [reflexivity|].
    destruct (tighten_bounds ch) as [[|] ch']; reflexivity.
  - destruct (tighten_bounds at_) as [[|] at']; simpl; [reflexivity|].
    destruct (tighten_bounds ch) as [[|] ch']; reflexivity.
Qed.

Lemma XMLElementEdit_tighten_bounds_nodes (self : XMLElementEdit E) :
  let result := XMLElementEdit_tighten_bounds tighten_bounds self in
  from_node (snd result) = from_node self
  /\ to_node (snd result) = to_node self.
Proof.
  destruct self as [f t tg at_ tx ch].
  unfold XMLElementEdit_tighten_bounds; simpl.
  destruct (tighten_bounds tg) as [[|] tg']; simpl; [split; reflexivity|].
  destruct tx as [te|]; simpl.
  - destruct (tighten_bounds te) as [[|] te']; simpl; [split; reflexivity|].
    destruct (tighten_bounds at_) as [[|] at']; simpl; [split; reflexivity|].
    destruct (tighten_bounds ch) as [[|] ch']; split; reflexivity.
  - destruct (tighten_bounds at_) as [[|] at']; simpl; [split; reflexivity|].
    destruct (tighten_bounds ch) as [[|] ch']; split; reflexivity.
Qed.

(** C1, amended: [tighten_bounds] calls [tighten_bounds] on the sub-edits in
    the order tag edit, text edit (when present), attribute edit, child edit
    - not the order of iteration - until a call returns [True], and returns
    [True] exactly when one did; the sub-edits after that one are not
    touched.  When the sub-edits keep the contract of [Bounded], this
    tightens exactly the first sub-edit, in that order, whose bounds are not
    definitive, and returns that call's answer. *)
Theorem XMLElementEdit_tighten_bounds_first (self : XMLElementEdit E) :
  let result := XMLElementEdit_tighten_bounds tighten_bounds self in
  from_node (snd result) = from_node self
  /\ to_node (snd result) = to_node self
  /\ (fst result, tighten_order (snd result))
     = tighten_until_narrowed tighten_bounds (tighten_order self)
  /\ (Forall (keeps_contract bounds tighten_bounds) (tighten_order self) ->
      (fst result, tighten_order (snd result))
      = tighten_first_non_definitive bounds tighten_bounds
          (tighten_order self)).
Proof.
  intros result.
  destruct (XMLElementEdit_tighten_bounds_nodes self) as [Hf Ht].
  pose proof (XMLElementEdit_tighten_bounds_until self) as Hu.
  repeat split; try assumption.
  intros Hc. fold result in Hu. rewrite Hu.
  apply tighten_until_narrowed_contract, Hc.
Qed.

End XMLElementEdit_facts.

(** ** [TreeNode.total_size] *)

Section total_size_facts.
Context {F : Type}.
Variable calculate_total_size : TreeNode F -> Z * TreeNode F.

Lemma total_size_uncached (self : TreeNode F) :
  _total_size self = None ->
  total_size calculate_total_size self
  = (fst (calculate_total_size self),
     mkTreeNode (Some (fst (calculate_total_size self)))
       (fields (snd (calculate_total_size self)))).
Proof.
  intros Hnone. unfold total_size. rewrite Hnone.
  destruct (calculate_total_size self); reflexivity.
Qed.

Lemma total_size_stored (self : TreeNode F) :
  _total_size (snd (total_size calculate_total_size self))
  = Some (fst (total_size calculate_total_size self)).
Proof.
  unfold total_size.
  destruct (_total_size self) as [v|] eqn:Hc; simpl; [exact Hc|].
  destruct (calculate_total_size self); reflexivity.
Qed.

(** Reading [total_size] of a node whose size is stored returns the stored
    value and the node as it was, whatever [calculate_total_size] is. *)
Lemma total_size_cached (recalculate : TreeNode F -> Z * TreeNode F)
  (self : TreeNode F) (v : Z) :
  _total_size self = Some v ->
  total_size recalculate self = (v, self).
Proof. intros Hc. unfold total_size. rewrite Hc. reflexivity. Qed.

Lemma total_size_again (self : TreeNode F) :
  fst (total_size calculate_total_size
         (snd (total_size calculate_total_size self)))
  = fst (total_size calculate_total_size self).
Proof.
  rewrite (total_size_cached calculate_total_size _ (total_size_stored self)).
  reflexivity.
Qed.

(** C8: the first access to [total_size] (nothing stored yet) returns what
    [calculate_total_size] computes and stores it; the access itself writes
    no other attribute: the attributes are those [calculate_total_size] left.
    Every later access returns the stored value and leaves the node as it is,
    without a call of [calculate_total_size]: the result is the same whatever
    that method would do. *)
Theorem total_size_computed_once (self : TreeNode F) :
  _total_size self = None ->
  let first := total_size calculate_total_size self in
  fst first = fst (calculate_total_size self)
  /\ _total_size (snd first) = Some (fst first)
  /\ fields (snd first) = fields (snd (calculate_total_size self))
  /\ forall recalculate : TreeNode F -> Z * TreeNode F,
       total_size recalculate (snd first) = (fst first, snd first).
Proof.
  intros Hnone first. unfold first.
  rewrite (total_size_uncached self Hnone). simpl.
  split; [reflexivity|]. split; [reflexivity|]. split; [reflexivity|].
  intros recalculate. apply total_size_cached. reflexivity.
Qed.

End total_size_facts.

(** ** [XMLElement]: size, equality, edits *)

Lemma PyStr_eqb_eq (s t : PyStr.str) : PyStr.eqb s t = true <-> s = t.
Proof.
  revert t; induction s as [|c s IH]; intros [|d t]; simpl;
    try (split; [discriminate|discriminate]); [tauto|].
  rewrite andb_true_iff, N.eqb_eq, IH.
  split; [intros [-> ->]; reflexivity|intros [= -> ->]; split; reflexivity].
Qed.

Section XMLElement_facts.
Context `{Containers}.

(** [calculate_total_size] reads the parts and changes nothing but the
    stored sizes inside them. *)
Lemma XMLElement_calculate_total_size_value (self : XMLElement) :
  fst (XMLElement_calculate_total_size self) = parts_total_size self.
Proof.
  unfold XMLElement_calculate_total_size, parts_total_size.
  destruct (text (fields self)) as [t|].
  - destruct (total_size StringNode_calculate_total_size t).
    destruct (total_size StringNode_calculate_total_size (tag (fields self))).
    destruct (total_size DictNode_calculate_total_size (attrib (fields self))).
    destruct (total_size ListNode_calculate_total_size
                (_children (fields self))).
    simpl. lia.
  - destruct (total_size StringNode_calculate_total_size (tag (fields self))).
    destruct (total_size DictNode_calculate_total_size (attrib (fields self))).
    destruct (total_size ListNode_calculate_total_size
                (_children (fields self))).
    simpl. lia.
Qed.

Lemma XMLElement_calculate_total_size_parts (self : XMLElement) :
  fields (snd (XMLElement_calculate_total_size self))
  = mkXMLElementFields
      (snd (total_size StringNode_calculate_total_size (tag (fields self))))
      (snd (total_size DictNode_calculate_total_size (attrib (fields self))))
      (option_map
         (fun t => snd (total_size StringNode_calculate_total_size t))
         (text (fields self)))
      (snd (total_size ListNode_calculate_total_size
              (_children (fields self)))).
Proof.
  unfold XMLElement_calculate_total_size.
  destruct (text (fields self)) as [t|]; cbn [option_map].
  - destruct (total_size StringNode_calculate_total_size t).
    destruct (total_size StringNode_calculate_total_size (tag (fields self))).
    destruct (total_size DictNode_calculate_total_size (attrib (fields self))).
    destruct (total_size ListNode_calculate_total_size
                (_children (fields self))).
    reflexivity.
  - destruct (total_size StringNode_calculate_total_size (tag (fields self))).
    destruct (total_size DictNode_calculate_total_size (attrib (fields self))).
    destruct (total_size ListNode_calculate_total_size
                (_children (fields self))).
    reflexivity.
Qed.

(** C7: the [total_size] of an element read for the first time is the sum of
    the total sizes of its tag, its attribute mapping and its child list,
    plus the total size of its text when there is one; every later read
    returns the same number, which is still the sum over the parts. *)
Theorem XMLElement_total_size_parts (self : XMLElement) :
  _total_size self = None ->
  let first := total_size XMLElement_calculate_total_size self in
  fst first = parts_total_size self
  /\ fst (total_size XMLElement_calculate_total_size (snd first))
     = parts_total_size (snd first)
  /\ parts_total_size (snd first) = parts_total_size self.
Proof.
  intros Hnone first.
  assert (Hfirst : fst first = parts_total_size self).
  { unfold first. rewrite (total_size_uncached _ self Hnone). simpl.
    apply XMLElement_calculate_total_size_value. }
  assert (Hparts : parts_total_size (snd first) = parts_total_size self).
  { unfold first. rewrite (total_size_uncached _ self Hnone). simpl.
    unfold parts_total_size. simpl.
    rewrite XMLElement_calculate_total_size_parts. simpl.
    rewrite !total_size_again.
    destruct (text (fields self)) as [t|]; simpl;
      [rewrite total_size_again|]; reflexivity. }
  split; [exact Hfirst|]. split; [|exact Hparts].
  unfold first. rewrite total_size_again. fold first.
  rewrite Hparts. exact Hfirst.
Qed.

(** C2, amended: [==] compares the texts of two elements after stripping
    leading and trailing whitespace, an absent text counting as the empty
    string: for elements with equal tags, attributes and children it returns
    [True] exactly when the stripped texts are equal. *)
Theorem XMLElement_eq_stripped_text (self other : XMLElement) :
  StringNode_eq (tag (fields other)) (tag (fields self)) = true ->
  DictNode_eq (attrib (fields other)) (attrib (fields self)) = true ->
  ListNode_eq (_children (fields other)) (_children (fields self)) = true ->
  (XMLElement_eq self (XMLN other) = true
   <-> stripped_text other = stripped_text self).
Proof.
  intros Htag Hattrib Hchildren. unfold XMLElement_eq.
  rewrite Htag, Hattrib, Hchildren, andb_true_r. simpl.
  apply PyStr_eqb_eq.
Qed.

(** [==] with a node that is no [XMLElement] is [False]. *)
Lemma XMLElement_eq_other_class (self : XMLElement) (other : Node) :
  XMLElement_eq self other = true -> exists e, other = XMLN e.
Proof. destruct other; simpl; try discriminate. intros _. eauto. Qed.

End XMLElement_facts.

Section XMLElement_edits_facts.
Context `{Collaborators}.

(** C6: for an element [a] and a node [b] with [a == b], [a.edits(b)] is
    [Match(a, b, 0)], whose bounds are the definitive range [[0, 0]]; the
    loop of the driver leaves this edit at once, without a call of
    [tighten_bounds], so the cost of the diff is [0]. *)
Theorem XMLElement_edits_equal (a : XMLElement) (b : Node) :
  XMLElement_eq a b = true ->
  XMLElement_edits a b = Some (Match (XMLN a) b 0)
  /\ bounds (Match (XMLN a) b 0) = mkRange 0 0
  /\ definitive (bounds (Match (XMLN a) b 0)) = true
  /\ forall fuel,
       tighten_loop (S fuel) (Match (XMLN a) b 0)
       = Some (Match (XMLN a) b 0, 0%nat).
Proof.
  intros Heq. unfold XMLElement_edits. rewrite Heq.
  repeat split.
Qed.

(** C10: the text sub-edit built by [XMLElementEdit.__init__] is
    [from_node.text.edits(to_node.text)] when both elements have a text, an
    [Insert] of [to_node.text] when only [to_node] has one, a [Remove] of
    [from_node.text] when only [from_node] has one, and absent when neither
    has one; an absent text edit adds the range [[0, 0]] to the bounds and is
    not yielded by [edits], a present one is yielded third. *)
Theorem XMLElementEdit_init_text_edit (from_node to_node : XMLElement) :
  let e := XMLElementEdit_init from_node to_node in
  (forall from_text to_text,
     text (fields from_node) = Some from_text ->
     text (fields to_node) = Some to_text ->
     text_edit e = Some (StringNode_edits from_text to_text))
  /\ (forall to_text,
        text (fields from_node) = None ->
        text (fields to_node) = Some to_text ->
        text_edit e = Some (Insert (StringN to_text) (XMLN from_node)))
  /\ (forall from_text,
        text (fields from_node) = Some from_text ->
        text (fields to_node) = None ->
        text_edit e = Some (Remove (StringN from_text) (XMLN from_node)))
  /\ (text (fields from_node) = None ->
      text (fields to_node) = None ->
      text_edit e = None
      /\ XMLElementEdit_bounds bounds e
         = mkRange 0 0 +r bounds (tag_edit e) +r bounds (attrib_edit e)
           +r bounds (child_edit e)
      /\ XMLElementEdit_edits e = [tag_edit e; attrib_edit e; child_edit e])
  /\ (forall te,
        text_edit e = Some te ->
        XMLElementEdit_edits e
        = [tag_edit e; attrib_edit e; te; child_edit e]).
Proof.
  intros e. unfold e, XMLElementEdit_init, XMLElementEdit_bounds,
    XMLElementEdit_edits. simpl.
  split; [intros ft tt -> ->; reflexivity|].
  split; [intros tt -> ->; reflexivity|].
  split; [intros ft -> ->; reflexivity|].
  split; [intros -> ->; repeat split|].
  intros te ->. reflexivity.
Qed.

End XMLElement_edits_facts.

(** ** [explode_edits] *)

Section explode_edits_facts.
Context `{Collaborators}.

(** The definition by recursion on the structure is the source's: the chain
    of [explode_edits] mapped over [edit.edits()] for a [CompoundEdit], the
    edit alone otherwise. *)
Lemma explode_edits_unfold (edit : AnyEdit) :
  explode_edits edit
  = match compound_edits edit with
    | Some subs => List.concat (map explode_edits subs)
    | None => [edit]
    end.
Proof.
  destruct edit as [| | |[f t tg at_ [te|] ch]| |]; simpl;
    rewrite ?app_nil_r; reflexivity.
Qed.

Lemma explode_edits_plain :
  forall edit : AnyEdit,
    Forall (fun e => compound_edits e = None) (explode_edits edit).
Proof.
  fix IH 1. intros edit.
  destruct edit as [a b c|y i|x r|[f t tg at_ tx ch]|s|s subs]; simpl;
    try (constructor; [reflexivity|constructor]).
  - repeat (apply Forall_app; split); try apply IH.
    destruct tx as [te|]; [apply IH|constructor].
  - induction subs as [|e rest IHrest]; simpl; [constructor|].
    apply Forall_app; split; [apply IH|exact IHrest].
Qed.

(** C9: [explode_edits] of an edit that is no [CompoundEdit] yields that
    edit alone; of a [CompoundEdit] it yields the concatenation, in the order
    of [edits()], of the results for the sub-edits; no edit it yields is a
    [CompoundEdit]. *)
Theorem explode_edits_spec (edit : AnyEdit) :
  (compound_edits edit = None -> explode_edits edit = [edit])
  /\ (forall subs,
        compound_edits edit = Some subs ->
        explode_edits edit = List.concat (map explode_edits subs))
  /\ Forall (fun e => is_compound e = false) (explode_edits edit).
Proof.
  split; [|split].
  - intros Hnone. rewrite explode_edits_unfold, Hnone. reflexivity.
  - intros subs Hsome. rewrite explode_edits_unfold, Hsome. reflexivity.
  - eapply Forall_impl; [|apply explode_edits_plain].
    intros e He. unfold is_compound. rewrite He. reflexivity.
Qed.

End explode_edits_facts.

(** ** The driver *)

Section Driver_facts.
Context {E : Type} `{Edit E}.

Lemma tightened_S (k : nat) (edit : E) :
  tightened (S k) edit = tightened k (snd (tighten_bounds edit)).
Proof. reflexivity. Qed.

Lemma tighten_loop_S (fuel : nat) (edit : E) :
  tighten_loop (S fuel) edit
  = if valid edit then
      if negb (definitive (bounds edit)) then
        let '(narrowed, edit') := tighten_bounds edit in
        if narrowed then
          match tighten_loop fuel edit' with
          | Some (final, calls) => Some (final, S calls)
          | None => None
          end
        else Some (edit', 1%nat)
      else Some (edit, 0%nat)
    else Some (edit, 0%nat).
Proof. reflexivity. Qed.

(** Whatever the loop returns, it stopped as [stops_after] says. *)
Lemma tighten_loop_sound (fuel : nat) :
  forall (edit final : E) (calls : nat),
    tighten_loop fuel edit = Some (final, calls) ->
    stops_after edit calls final.
Proof.
  induction fuel as [|fuel IH]; intros edit final calls; simpl;
    [discriminate|].
  destruct (valid edit) eqn:Hvalid.
  2:{ intros [= <- <-]. unfold stops_after. simpl.
      split; [reflexivity|]. split; [intros k Hk; lia|].
      split; [intros k Hk; lia|]. right; left; exact Hvalid. }
  destruct (definitive (bounds edit)) eqn:Hdef; simpl.
  { intros [= <- <-]. unfold stops_after. simpl.
    split; [reflexivity|]. split; [intros k Hk; lia|].
    split; [intros k Hk; lia|]. right; right; exact Hdef. }
  destruct (tighten_bounds edit) as [narrowed edit'] eqn:Hcall.
  destruct narrowed.
  - destruct (tighten_loop fuel edit') as [[final' calls']|] eqn:Hrec;
      [|discriminate].
    intros [= <- <-].
    destruct (IH _ _ _ Hrec) as (Hfinal & Hguard & Hprev & Hstop).
    unfold stops_after. rewrite tightened_S, Hcall. simpl.
    split; [exact Hfinal|]. split; [|split].
    + intros [|k] Hk; simpl; [auto|].
      rewrite Hcall. simpl. apply Hguard. lia.
    + intros [|k] Hk; simpl; [rewrite Hcall; reflexivity|].
      rewrite Hcall. simpl. apply Hprev. lia.
    + destruct Hstop as [(k & -> & Hk)|Hstop]; [left|right; exact Hstop].
      exists (S k). split; [reflexivity|]. simpl. rewrite Hcall. exact Hk.
  - intros [= <- <-]. unfold stops_after. simpl. rewrite Hcall. simpl.
    split; [reflexivity|]. split; [|split].
    + intros k Hk. assert (k = 0%nat) as -> by lia. simpl. auto.
    + intros k Hk. lia.
    + left. exists 0%nat. simpl. rewrite Hcall. auto.
Qed.

(** Whenever the edits reached by tightening stop as [stops_after] says, the
    loop returns just that. *)
Lemma tighten_loop_complete (calls : nat) :
  forall edit final : E,
    stops_after edit calls final ->
    tighten_loop (S calls) edit = Some (final, calls).
Proof.
  induction calls as [|calls IH]; intros edit final
    (Hfinal & Hguard & Hprev & Hstop).
  - simpl in *. subst final.
    destruct Hstop as [(k & Hk & _)|[Hv|Hd]]; [discriminate| |].
    + rewrite Hv. reflexivity.
    + rewrite Hd. destruct (valid edit); reflexivity.
  - destruct (Hguard 0%nat ltac:(lia)) as [Hvalid Hdef]. simpl in Hvalid, Hdef.
    rewrite tighten_loop_S, Hvalid, Hdef. cbn [negb].
    destruct (tighten_bounds edit) as [narrowed edit'] eqn:Hcall.
    rewrite tightened_S, Hcall in Hfinal. simpl in Hfinal.
    destruct narrowed.
    + rewrite (IH edit' final); [reflexivity|].
      split; [exact Hfinal|]. split; [|split].
      * intros k Hk. specialize (Hguard (S k) ltac:(lia)).
        rewrite tightened_S, Hcall in Hguard. exact Hguard.
      * intros k Hk. specialize (Hprev (S k) ltac:(lia)).
        rewrite tightened_S, Hcall in Hprev. exact Hprev.
      * destruct Hstop as [(k & Hk & Hfalse)|Hstop]; [|right; exact Hstop].
        injection Hk as ->. destruct k as [|k].
        { simpl in Hfalse. rewrite Hcall in Hfalse. discriminate. }
        left. exists k. split; [reflexivity|].
        rewrite tightened_S, Hcall in Hfalse. exact Hfalse.
    + destruct calls as [|calls].
      * simpl in Hfinal. subst final. reflexivity.
      * specialize (Hprev 0%nat ltac:(lia)). simpl in Hprev.
        rewrite Hcall in Hprev. discriminate.
Qed.

Context {N : Type}.
Variable make_edited : N -> N.
Variable node_edits : N -> N -> E.

(** C3: [diff] asks the edited copy of [a] for its edit against [b] and
    then tightens that edit; it returns after [calls] calls with the edit
    [final] exactly when every call was made on a valid edit with bounds that
    were not definitive, every call before the last returned [True], and the
    last call returned [False] or [final] is invalid or has definitive
    bounds. *)
Theorem diff_stops_exactly (a b ret : N) (final : E) (calls : nat) :
  (exists fuel, diff make_edited node_edits fuel a b
                = Some (ret, final, calls))
  <-> ret = make_edited a
      /\ stops_after (node_edits (make_edited a) b) calls final.
Proof.
  unfold diff. split.
  - intros [fuel Hrun].
    destruct (tighten_loop fuel (node_edits (make_edited a) b))
      as [[final' calls']|] eqn:Hloop; [|discriminate].
    injection Hrun as <- <- <-.
    split; [reflexivity|]. eapply tighten_loop_sound, Hloop.
  - intros [-> Hstops]. exists (S calls).
    rewrite (tighten_loop_complete Hstops). reflexivity.
Qed.

End Driver_facts.

Section Driver_termination.
Context {E : Type} `{Edit E}.

(** With bounds that stay between [0] and [limit] and calls that narrow
    them by at least one or return [False], the loop ends within
    [width + limit + 1] calls. *)
Lemma tighten_loop_terminates (limit : Z) (m : nat) :
  forall edit : E,
    (forall k, within limit (bounds (tightened k edit))) ->
    (forall k, narrows_or_refuses (tightened k edit)) ->
    width (bounds edit) + limit <= Z.of_nat m ->
    exists final calls,
      tighten_loop (S m) edit = Some (final, calls) /\ (calls <= S m)%nat.
Proof.
  induction m as [|m IH]; intros edit Hwithin Hnarrow Hm;
    rewrite tighten_loop_S;
    (destruct (valid edit); [|exists edit, 0%nat; split; [reflexivity|lia]]);
    (destruct (definitive (bounds edit));
       [exists edit, 0%nat; split; [reflexivity|lia]|]);
    cbn [negb];
    pose proof (Hnarrow 0%nat) as Hcall; pose proof (Hwithin 1%nat) as Hnext;
    pose proof (Hwithin 0%nat) as Hnow;
    unfold narrows_or_refuses, within, width in *; simpl in Hcall, Hnext, Hnow;
    destruct (tighten_bounds edit) as [narrowed edit'] eqn:Hstep;
    simpl in Hcall, Hnext;
    (destruct narrowed;
       [|exists edit', 1%nat; split; [reflexivity|lia]]);
    (destruct Hcall as [Hfalse|Hless]; [discriminate|]).
  - lia.
  - destruct (IH edit') as (final & calls & Hrun & Hcalls).
    + intros k. specialize (Hwithin (S k)). simpl in Hwithin.
      rewrite Hstep in Hwithin. exact Hwithin.
    + intros k. specialize (Hnarrow (S k)). simpl in Hnarrow.
      rewrite Hstep in Hnarrow. exact Hnarrow.
    + lia.
    + exists final, (S calls). rewrite Hrun. split; [reflexivity|lia].
Qed.

Context {N : Type}.
Variable make_edited : N -> N.
Variable node_edits : N -> N -> E.
(** The value of [node.total_size]. *)
Variable node_total_size : N -> Z.

(** C4: when the bounds of the root edit stay between [0] and
    [a.total_size + b.total_size] and every call of [tighten_bounds] narrows
    them by at least one or returns [False], [diff] returns, after at most
    [2 * (a.total_size + b.total_size) + 1] calls of [tighten_bounds]. *)
Theorem diff_terminates (a b : N) :
  let edit := node_edits (make_edited a) b in
  let limit := node_total_size a + node_total_size b in
  (forall k, within limit (bounds (tightened k edit))) ->
  (forall k, narrows_or_refuses (tightened k edit)) ->
  exists fuel final calls,
    diff make_edited node_edits fuel a b = Some (make_edited a, final, calls)
    /\ Z.of_nat calls <= 2 * limit + 1.
Proof.
  intros edit limit Hwithin Hnarrow.
  pose proof (Hwithin 0%nat) as Hnow. unfold within in Hnow. simpl in Hnow.
  destruct (tighten_loop_terminates
              (Z.to_nat (width (bounds edit) + limit)) edit Hwithin Hnarrow)
    as (final & calls & Hrun & Hcalls).
  { unfold width. lia. }
  exists (S (Z.to_nat (width (bounds edit) + limit))), final, calls.
  unfold diff. fold edit. rewrite Hrun. split; [reflexivity|].
  unfold width in *. lia.
Qed.

End Driver_termination.

(** ** More on [XMLElement.__eq__] and [XMLElement.edits] *)

Lemma PyStr_eqb_refl (s : PyStr.str) : PyStr.eqb s s = true.
Proof. apply PyStr_eqb_eq. reflexivity. Qed.

Lemma PyStr_eqb_sym (s t : PyStr.str) : PyStr.eqb s t = PyStr.eqb t s.
Proof.
  destruct (PyStr.eqb s t) eqn:Hst.
  - apply PyStr_eqb_eq in Hst. subst t. symmetry. apply PyStr_eqb_refl.
  - destruct (PyStr.eqb t s) eqn:Hts; [|reflexivity].
    apply PyStr_eqb_eq in Hts. subst t.
    rewrite PyStr_eqb_refl in Hst. discriminate.
Qed.

Lemma lstrip_spaces (ws s : PyStr.str) :
  forallb PyStr.isspace ws = true ->
  PyStr.lstrip (ws ++ s) = PyStr.lstrip s.
Proof.
  induction ws as [|c ws IH]; simpl; [reflexivity|].
  intros Hws. apply andb_true_iff in Hws as [Hc Hws].
  rewrite Hc. apply IH, Hws.
Qed.

Lemma lstrip_all_spaces (ws : PyStr.str) :
  forallb PyStr.isspace ws = true -> PyStr.lstrip ws = [].
Proof.
  intros Hws. rewrite <- (app_nil_r ws), lstrip_spaces by exact Hws.
  reflexivity.
Qed.

Lemma lstrip_app (s t : PyStr.str) :
  PyStr.lstrip (s ++ t)
  = if forallb PyStr.isspace s then PyStr.lstrip t else PyStr.lstrip s ++ t.
Proof.
  induction s as [|c s IH]; simpl; [reflexivity|].
  destruct (PyStr.isspace c); simpl; [exact IH|reflexivity].
Qed.

Lemma rstrip_spaces (s ws : PyStr.str) :
  forallb PyStr.isspace ws = true ->
  PyStr.rstrip (s ++ ws) = PyStr.rstrip s.
Proof.
  intros Hws. unfold PyStr.rstrip. rewrite rev_app_distr.
  rewrite lstrip_spaces; [reflexivity|].
  rewrite forallb_forall in *. intros c Hc. apply Hws, in_rev, Hc.
Qed.

(** [strip] does not see whitespace put around a string. *)
Lemma strip_padded (ws1 s ws2 : PyStr.str) :
  forallb PyStr.isspace ws1 = true ->
  forallb PyStr.isspace ws2 = true ->
  PyStr.strip (ws1 ++ s ++ ws2) = PyStr.strip s.
Proof.
  intros H1 H2. unfold PyStr.strip.
  rewrite lstrip_spaces by exact H1. rewrite lstrip_app.
  destruct (forallb PyStr.isspace s) eqn:Hs.
  - rewrite (lstrip_all_spaces _ H2), (lstrip_all_spaces _ Hs). reflexivity.
  - apply rstrip_spaces, H2.
Qed.

Lemma strip_all_spaces (ws : PyStr.str) :
  forallb PyStr.isspace ws = true -> PyStr.strip ws = [].
Proof.
  intros Hws. unfold PyStr.strip. rewrite (lstrip_all_spaces _ Hws).
  reflexivity.
Qed.

Section XMLElement_eq_facts.
Context `{Containers}.

(** X1: whitespace around the text of an element is invisible to [==]: two
    elements with equal tags, attributes and children are equal when the text
    of one is the text of the other with whitespace before and after it. *)
Theorem XMLElement_eq_padded_text (self other : XMLElement)
  (t u : StringNode) (ws1 ws2 : PyStr.str) :
  StringNode_eq (tag (fields other)) (tag (fields self)) = true ->
  DictNode_eq (attrib (fields other)) (attrib (fields self)) = true ->
  ListNode_eq (_children (fields other)) (_children (fields self)) = true ->
  text (fields self) = Some t ->
  text (fields other) = Some u ->
  forallb PyStr.isspace ws1 = true ->
  forallb PyStr.isspace ws2 = true ->
  object (fields u) = ws1 ++ object (fields t) ++ ws2 ->
  XMLElement_eq self (XMLN other) = true.
Proof.
  intros Htag Hattrib Hchildren Ht Hu H1 H2 Hpad.
  unfold XMLElement_eq, stripped_text.
  rewrite Htag, Hattrib, Hchildren, Ht, Hu, Hpad, strip_padded by assumption.
  rewrite PyStr_eqb_refl. reflexivity.
Qed.

(** X2: a text made of whitespace only (the empty text too) counts as no
    text: an element with such a text equals the element without text that
    has the same tag, attributes and children. *)
Theorem XMLElement_eq_blank_text (self other : XMLElement) (u : StringNode) :
  StringNode_eq (tag (fields other)) (tag (fields self)) = true ->
  DictNode_eq (attrib (fields other)) (attrib (fields self)) = true ->
  ListNode_eq (_children (fields other)) (_children (fields self)) = true ->
  text (fields self) = None ->
  text (fields other) = Some u ->
  forallb PyStr.isspace (object (fields u)) = true ->
  XMLElement_eq self (XMLN other) = true.
Proof.
  intros Htag Hattrib Hchildren Hnone Hu Hblank.
  unfold XMLElement_eq, stripped_text.
  rewrite Htag, Hattrib, Hchildren, Hnone, Hu, strip_all_spaces by assumption.
  reflexivity.
Qed.

(** X3: [==] between two elements gives the same answer in both directions
    when the equalities of their attribute mappings and of their child lists
    do. *)
Theorem XMLElement_eq_sym (a b : XMLElement) :
  DictNode_eq (attrib (fields b)) (attrib (fields a))
  = DictNode_eq (attrib (fields a)) (attrib (fields b)) ->
  ListNode_eq (_children (fields b)) (_children (fields a))
  = ListNode_eq (_children (fields a)) (_children (fields b)) ->
  XMLElement_eq a (XMLN b) = XMLElement_eq b (XMLN a).
Proof.
  intros Hd Hl. unfold XMLElement_eq, StringNode_eq.
  rewrite (PyStr_eqb_sym (object (fields (tag (fields b))))).
  rewrite (PyStr_eqb_sym (stripped_text b)).
  rewrite Hd, Hl. reflexivity.
Qed.

End XMLElement_eq_facts.

Section XMLElement_identity.
Context `{Collaborators}.

(** X4: an element whose attribute mapping and child list equal themselves
    equals itself, its edit against itself is [Match] with cost [0], and the
    loop of the driver leaves that edit without a call of
    [tighten_bounds]. *)
Theorem XMLElement_edits_self (a : XMLElement) :
  DictNode_eq (attrib (fields a)) (attrib (fields a)) = true ->
  ListNode_eq (_children (fields a)) (_children (fields a)) = true ->
  XMLElement_eq a (XMLN a) = true
  /\ XMLElement_edits a (XMLN a) = Some (Match (XMLN a) (XMLN a) 0)
  /\ forall fuel,
       tighten_loop (S fuel) (Match (XMLN a) (XMLN a) 0)
       = Some (Match (XMLN a) (XMLN a) 0, 0%nat).
Proof.
  intros Hattrib Hchildren.
  assert (Heq : XMLElement_eq a (XMLN a) = true).
  { unfold XMLElement_eq, StringNode_eq.
    rewrite Hattrib, Hchildren, !PyStr_eqb_refl. reflexivity. }
  split; [exact Heq|]. unfold XMLElement_edits. rewrite Heq.
  split; [reflexivity|]. intros fuel. reflexivity.
Qed.

End XMLElement_identity.

(** ** More on [XMLElementEdit] *)

Lemma well_formed_add (a b : Range) :
  well_formed a -> well_formed b -> well_formed (a +r b).
Proof. unfold well_formed, Range_add; simpl; lia. Qed.

Lemma definitive_add (a b : Range) :
  well_formed a -> well_formed b ->
  definitive (a +r b) = definitive a && definitive b.
Proof.
  unfold well_formed, definitive, Range_add; simpl. intros Ha Hb.
  destruct (Z.eqb_spec (lower_bound a) (upper_bound a));
    destruct (Z.eqb_spec (lower_bound b) (upper_bound b)); simpl;
    [apply Z.eqb_eq|apply Z.eqb_neq..]; lia.
Qed.

Lemma narrower_refl (r : Range) : narrower r r.
Proof. unfold narrower; lia. Qed.

Lemma narrower_add (a a' b b' : Range) :
  narrower a' a -> narrower b' b -> narrower (a' +r b') (a +r b).
Proof. unfold narrower, Range_add; simpl; lia. Qed.

Section XMLElementEdit_more.
Context `{Containers} {E : Type}.
Variable bounds : E -> Range.
Variable tighten_bounds : E -> bool * E.
Variable is_complete : E -> bool.

(** X5: when no sub-edit widens its bounds on [tighten_bounds], an
    [XMLElementEdit] does not either: its bounds after a call lie inside its
    bounds before the call. *)
Theorem XMLElementEdit_never_widens (self : XMLElementEdit E) :
  (forall e, In e (tighten_order self) ->
             never_widens bounds tighten_bounds e) ->
  never_widens (XMLElementEdit_bounds bounds)
    (XMLElementEdit_tighten_bounds tighten_bounds) self.
Proof.
  destruct self as [f t tg at_ tx ch]. unfold tighten_order; simpl.
  intros Hn.
  assert (Htg := Hn tg (or_introl eq_refl)).
  assert (Hat : never_widens bounds tighten_bounds at_).
  { apply Hn. right. apply in_or_app. right. left. reflexivity. }
  assert (Hch : never_widens bounds tighten_bounds ch).
  { apply Hn. right. apply in_or_app. right. right. left. reflexivity. }
  assert (Htx : forall te, tx = Some te ->
                           never_widens bounds tighten_bounds te).
  { intros te ->. apply Hn. right. left. reflexivity. }
  unfold never_widens in *.
  unfold XMLElementEdit_tighten_bounds, XMLElementEdit_bounds; simpl.
  destruct (tighten_bounds tg) as [[|] tg']; simpl in *.
  { repeat apply narrower_add; auto using narrower_refl. }
  destruct tx as [te|]; simpl.
  - specialize (Htx te eq_refl).
    destruct (tighten_bounds te) as [[|] te']; simpl in *.
    { repeat apply narrower_add; auto using narrower_refl. }
    destruct (tighten_bounds at_) as [[|] at']; simpl in *.
    { repeat apply narrower_add; auto using narrower_refl. }
    destruct (tighten_bounds ch) as [[|] ch']; simpl in *;
      repeat apply narrower_add; auto using narrower_refl.
  - destruct (tighten_bounds at_) as [[|] at']; simpl in *.
    { repeat apply narrower_add; auto using narrower_refl. }
    destruct (tighten_bounds ch) as [[|] ch']; simpl in *;
      repeat apply narrower_add; auto using narrower_refl.
Qed.

(** X6: an [XMLElementEdit] keeps the contract of [Bounded] when its
    sub-edits keep it and their bounds are well formed: with definitive
    bounds [tighten_bounds] returns [False] and changes nothing, and with
    bounds that are not definitive it returns [True]. *)
Theorem XMLElementEdit_keeps_contract (self : XMLElementEdit E) :
  (forall e, In e (tighten_order self) ->
             keeps_contract bounds tighten_bounds e
             /\ well_formed (bounds e)) ->
  keeps_contract (XMLElementEdit_bounds bounds)
    (XMLElementEdit_tighten_bounds tighten_bounds) self.
Proof.
  destruct self as [f t tg at_ tx ch]. unfold tighten_order; simpl.
  intros Hc.
  destruct (Hc tg (or_introl eq_refl)) as [Htg Wtg].
  assert (Hat : keeps_contract bounds tighten_bounds at_
                /\ well_formed (bounds at_)).
  { apply Hc. right. apply in_or_app. right. left. reflexivity. }
  assert (Hch : keeps_contract bounds tighten_bounds ch
                /\ well_formed (bounds ch)).
  { apply Hc. right. apply in_or_app. right. right. left. reflexivity. }
  assert (Htx : forall te, tx = Some te ->
                           keeps_contract bounds tighten_bounds te
                           /\ well_formed (bounds te)).
  { intros te ->. apply Hc. right. left. reflexivity. }
  destruct Hat as [Hat Wat], Hch as [Hch Wch].
  unfold keeps_contract in *.
  remember (snd (tighten_bounds tg)) as tg'.
  remember (snd (tighten_bounds at_)) as at'.
  remember (snd (tighten_bounds ch)) as ch'.
  unfold XMLElementEdit_tighten_bounds, XMLElementEdit_bounds; simpl.
  destruct tx as [te|]; simpl.
  - destruct (Htx te eq_refl) as [Hte Wte].
    remember (snd (tighten_bounds te)) as te'.
    rewrite !definitive_add by auto using well_formed_add.
    rewrite Htg, Hte, Hat, Hch.
    destruct (definitive (bounds tg)), (definitive (bounds te)),
      (definitive (bounds at_)), (definitive (bounds ch)); reflexivity.
  - rewrite !definitive_add
      by (auto using well_formed_add; unfold well_formed; simpl; lia).
    rewrite Htg, Hat, Hch.
    destruct (definitive (bounds tg)), (definitive (bounds at_)),
      (definitive (bounds ch)); reflexivity.
Qed.

(** X9: [is_complete] is [True] exactly when every sub-edit that [edits()]
    yields is complete. *)
Theorem XMLElementEdit_is_complete_all (self : XMLElementEdit E) :
  XMLElementEdit_is_complete is_complete self
  = forallb is_complete (XMLElementEdit_edits self).
Proof.
  destruct self as [f t tg at_ [te|] ch];
    unfold XMLElementEdit_is_complete, XMLElementEdit_edits; simpl;
    destruct (is_complete tg), (is_complete at_), (is_complete ch);
    try destruct (is_complete te); reflexivity.
Qed.

End XMLElementEdit_more.

(** ** More on the driver, [explode_edits] and [children] *)

Section Driver_contract.
Context {E : Type} `{Edit E} {N : Type}.
Variable make_edited : N -> N.
Variable node_edits : N -> N -> E.

(** X7: when the root edit keeps the contract of [Bounded] while it is
    tightened, the edit [diff] ends with has definitive bounds or is
    invalid: the loop is never left because a call returned [False] on
    bounds still open. *)
Theorem diff_ends_definitive (fuel : nat) (a b ret : N) (final : E)
  (calls : nat) :
  (forall k, keeps_contract bounds tighten_bounds
               (tightened k (node_edits (make_edited a) b))) ->
  diff make_edited node_edits fuel a b = Some (ret, final, calls) ->
  valid final = false \/ definitive (bounds final) = true.
Proof.
  intros Hc. unfold diff.
  destruct (tighten_loop fuel (node_edits (make_edited a) b))
    as [[final' calls']|] eqn:Hloop; [|discriminate].
  intros [= <- <- <-].
  destruct (tighten_loop_sound _ _ Hloop) as (_ & Hguard & _ & Hstop).
  destruct Hstop as [(k & -> & Hfalse)|Hstop]; [|exact Hstop].
  destruct (Hguard k ltac:(lia)) as [_ Hopen].
  specialize (Hc k). unfold keeps_contract in Hc.
  rewrite Hopen in Hc. rewrite Hc in Hfalse. discriminate.
Qed.

End Driver_contract.

Section explode_edits_more.
Context `{Containers}.

Lemma flat_map_singletons {A : Type} (f : A -> list A) (l : list A) :
  Forall (fun x => f x = [x]) l -> flat_map f l = l.
Proof.
  induction 1 as [|x l Hx _ IH]; simpl; [reflexivity|].
  rewrite Hx, IH. reflexivity.
Qed.

(** X8: exploding is idempotent: exploding every edit that [explode_edits]
    yielded gives the same sequence again. *)
Theorem explode_edits_idempotent (edit : AnyEdit) :
  flat_map explode_edits (explode_edits edit) = explode_edits edit.
Proof.
  apply flat_map_singletons.
  eapply Forall_impl; [|apply explode_edits_plain].
  intros e He. rewrite explode_edits_unfold, He. reflexivity.
Qed.

(** X10: the [total_size] of an element read for the first time is the sum
    of the total sizes of the nodes [children()] returns. *)
Theorem XMLElement_total_size_children (self : XMLElement) :
  _total_size self = None ->
  fst (total_size XMLElement_calculate_total_size self)
  = fold_right Z.add 0 (map Node_total_size (XMLElement_children self)).
Proof.
  intros Hnone. rewrite (total_size_uncached _ self Hnone). cbn [fst].
  transitivity (parts_total_size self);
    [apply XMLElement_calculate_total_size_value|].
  unfold parts_total_size, XMLElement_children.
  destruct (text (fields self)); simpl; lia.
Qed.

End explode_edits_more.

Section XMLElementEdit_init_more.
Context `{Collaborators}.

(** X11: [len(element)] is [4] with a text and [3] without, and the edit
    between two elements has one sub-edit for each child of the longer
    one. *)
Theorem XMLElementEdit_init_edits_length (from_node to_node : XMLElement) :
  XMLElement_len from_node
  = match text (fields from_node) with Some _ => 4 | None => 3 end%nat
  /\ length (XMLElementEdit_edits (XMLElementEdit_init from_node to_node))
     = Nat.max (XMLElement_len from_node) (XMLElement_len to_node).
Proof.
  unfold XMLElement_len, XMLElement_children, XMLElementEdit_edits,
    XMLElementEdit_init. simpl.
  destruct (text (fields from_node)), (text (fields to_node)); simpl;
    split; reflexivity.
Qed.

End XMLElementEdit_init_more.

(** ** [XMLElementObj.__str__] *)

Lemma in_replace_char (c old : N) (new s : PyStr.str) :
  In c (replace_char old new s) -> In c new \/ (In c s /\ c <> old).
Proof.
  unfold replace_char. rewrite in_flat_map. intros (d & Hd & Hc).
  destruct (N.eqb_spec d old) as [->|Hne]; [left; exact Hc|].
  right. destruct Hc as [<-|[]]. split; assumption.
Qed.

Lemma replace_char_absent (old : N) (new s : PyStr.str) :
  ~ In old s -> replace_char old new s = s.
Proof.
  unfold replace_char. induction s as [|c s IH]; simpl; [reflexivity|].
  intros Hn. destruct (N.eqb_spec c old) as [->|Hne].
  - exfalso. apply Hn. left. reflexivity.
  - simpl. f_equal. apply IH. intros Hin. apply Hn. right. exact Hin.
Qed.

(** What [html.escape] returns holds none of the characters [<], [>],
    double quote and single quote. *)
Lemma html_escape_no_markup (s : PyStr.str) (c : N) :
  In c (html_escape s) ->
  c <> 60%N /\ c <> 62%N /\ c <> 34%N /\ c <> 39%N.
Proof.
  unfold html_escape. intros Hin.
  apply in_replace_char in Hin as [Hin|[Hin H39]].
  { simpl in Hin. intuition (subst; discriminate). }
  apply in_replace_char in Hin as [Hin|[Hin H34]].
  { simpl in Hin. intuition (subst; discriminate). }
  apply in_replace_char in Hin as [Hin|[Hin H62]].
  { simpl in Hin. intuition (subst; discriminate). }
  apply in_replace_char in Hin as [Hin|[Hin H60]].
  { simpl in Hin. intuition (subst; discriminate). }
  repeat split; assumption.
Qed.

(** X12: in [__str__] the [replace] after [html.escape] never finds a
    double quote: an attribute is written as a space, the key, [=] and the
    escaped value between double quotes, and that value holds no [<], [>],
    double quote or single quote. *)
Theorem XMLElementObj_str_item_escaped (ret : PyStr.str)
  (kv : PyStr.str * PyStr.str) :
  XMLElementObj_str_item ret kv
  = ret ++ PyStr.of_string " " ++ fst kv ++ [61; 34]%N
    ++ html_escape (snd kv) ++ [34]%N
  /\ forall c, In c (html_escape (snd kv)) ->
               c <> 60%N /\ c <> 62%N /\ c <> 34%N /\ c <> 39%N.
Proof.
  split; [|intros c; apply html_escape_no_markup].
  unfold XMLElementObj_str_item. rewrite replace_char_absent; [reflexivity|].
  intros Hin. apply html_escape_no_markup in Hin. tauto.
Qed.

(** X13: [__str__] does not tell an empty text from a missing one, nor an
    empty sequence of children from a missing one. *)
Theorem XMLElementObj_str_empty_is_missing (tag : PyStr.str)
  (attrib : list (PyStr.str * PyStr.str)) (text : option PyStr.str)
  (children : option (list XMLElementObj)) :
  XMLElementObj_str (mkXMLElementObj tag attrib (Some []) children)
  = XMLElementObj_str (mkXMLElementObj tag attrib None children)
  /\ XMLElementObj_str (mkXMLElementObj tag attrib text (Some []))
     = XMLElementObj_str (mkXMLElementObj tag attrib text None).
Proof.
  split; simpl.
  - rewrite app_nil_r. reflexivity.
  - reflexivity.
Qed.

Lemma fold_left_app_each {A : Type} (f : A -> PyStr.str) (l : list A)
  (ret : PyStr.str) :
  fold_left (fun ret x => ret ++ f x) l ret = ret ++ List.concat (map f l).
Proof.
  revert ret; induction l as [|x l IH]; intros ret; simpl.
  - rewrite app_nil_r. reflexivity.
  - rewrite IH, app_assoc. reflexivity.
Qed.

Lemma XMLElementObj_str_item_app (ret : PyStr.str)
  (kv : PyStr.str * PyStr.str) :
  XMLElementObj_str_item ret kv = ret ++ XMLElementObj_str_item [] kv.
Proof. reflexivity. Qed.

Lemma fold_left_str_item (attrib : list (PyStr.str * PyStr.str))
  (ret : PyStr.str) :
  fold_left XMLElementObj_str_item attrib ret
  = ret ++ List.concat (map (XMLElementObj_str_item []) attrib).
Proof.
  revert ret; induction attrib as [|kv attrib IH]; intros ret; simpl.
  - rewrite app_nil_r. reflexivity.
  - rewrite IH, (XMLElementObj_str_item_app ret kv), <- app_assoc.
    reflexivity.
Qed.

(** X14: the string of an element is [<], the tag and the attributes in the
    order of the dictionary, followed by [ />] when the element has neither
    text nor children, and otherwise by [>], the escaped text, the strings of
    the children in order, and the closing tag. *)
Theorem XMLElementObj_str_shape (tag : PyStr.str)
  (attrib : list (PyStr.str * PyStr.str)) (text : option PyStr.str)
  (children : option (list XMLElementObj)) :
  XMLElementObj_str (mkXMLElementObj tag attrib text children)
  = PyStr.of_string "<" ++ tag
    ++ List.concat (map (XMLElementObj_str_item []) attrib)
    ++ if not_text text && not_children children
       then PyStr.of_string " />"
       else
         PyStr.of_string ">"
         ++ match text with
            | Some t => html_escape t
            | None => []
            end
         ++ List.concat
              (map XMLElementObj_str
                 match children with
                 | Some cs => cs
                 | None => []
                 end)
         ++ PyStr.of_string "</" ++ tag ++ PyStr.of_string ">".
Proof.
  cbn [XMLElementObj_str]. rewrite fold_left_str_item.
  destruct (not_text text && not_children children).
  - rewrite <- !app_assoc. reflexivity.
  - destruct text as [t|], children as [cs|];
      rewrite ?fold_left_app_each; simpl; rewrite <- ?app_assoc; simpl;
      rewrite ?app_nil_r; reflexivity.
Qed.

(** ** [build_tree] *)

Section build_tree_facts.
Context `{Containers}.
Variable default_quoted : bool.
Variable DictNode_from_dict : list (StringNode * StringNode) -> DictNode.
Variable FixedKeyDictNode_from_dict :
  list (StringNode * StringNode) -> DictNode.
Variable DictNode_make_edited : DictNode -> DictNode.
Variable ListNode_make_edited : ListNode -> ListNode.
Variable ListNode_new : list XMLElement -> ListNode.
Variable set_symbols : DictNode -> DictNode.
Variable unquote_keys : DictNode -> DictNode.
Variable set_symbols_again : DictNode -> DictNode.

Local Notation "'build'" :=
  (build_tree_element default_quoted DictNode_from_dict
     FixedKeyDictNode_from_dict DictNode_make_edited ListNode_make_edited
     ListNode_new set_symbols unquote_keys set_symbols_again).

(** X15: [build_tree] gives an element no text when the text of the XML
    element is missing or empty, so that both build the same tree; a text it
    does give is the text of the XML element, unquoted, and the tag is the
    tag of the XML element, unquoted; no size is stored yet. *)
Theorem build_tree_text (allow_key_edits : bool) (root_tag : PyStr.str)
  (root_attrib : list (PyStr.str * PyStr.str)) (root_text : option PyStr.str)
  (children : list Element) :
  let e := build allow_key_edits (mkElement root_tag root_attrib root_text children) in
  build allow_key_edits (mkElement root_tag root_attrib (Some []) children)
  = build allow_key_edits (mkElement root_tag root_attrib None children)
  /\ (root_text = None \/ root_text = Some [] <-> text (fields e) = None)
  /\ (forall t, text (fields e) = Some t ->
                root_text = Some (object (fields t))
                /\ object (fields t) <> []
                /\ quoted (fields t) = false)
  /\ object (fields (tag (fields e))) = root_tag
  /\ quoted (fields (tag (fields e))) = false
  /\ _total_size e = None.
Proof.
  intros e. unfold e. simpl.
  split; [reflexivity|]. split; [|split].
  - destruct root_text as [[|c t]|]; simpl; split; intros Hx;
      try reflexivity; try discriminate; try tauto.
    destruct Hx as [Hx|Hx]; discriminate.
  - intros t. destruct root_text as [[|c s]|]; simpl; try discriminate.
    intros [= <-]. simpl. repeat split. discriminate.
  - repeat split.
Qed.

(** X16: an XML element whose text is whitespace only builds an element
    equal ([==]) to the one built from the same XML element without text,
    when the attribute mapping and the child list built equal themselves. *)
Theorem build_tree_blank_text_eq (allow_key_edits : bool) (root_tag : PyStr.str)
  (root_attrib : list (PyStr.str * PyStr.str)) (ws : PyStr.str)
  (children : list Element) :
  (let e := build allow_key_edits (mkElement root_tag root_attrib None children) in
   DictNode_eq (attrib (fields e)) (attrib (fields e)) = true
   /\ ListNode_eq (_children (fields e)) (_children (fields e)) = true) ->
  forallb PyStr.isspace ws = true ->
  XMLElement_eq
    (build allow_key_edits (mkElement root_tag root_attrib None children))
    (XMLN (build allow_key_edits (mkElement root_tag root_attrib (Some ws) children)))
  = true.
Proof.
  simpl. intros [Hd Hl] Hws.
  unfold XMLElement_eq, StringNode_eq, stripped_text. simpl.
  rewrite Hd, Hl, PyStr_eqb_refl.
  destruct ws as [|c ws]; simpl; [reflexivity|].
  rewrite (strip_all_spaces (c :: ws) Hws). reflexivity.
Qed.

End build_tree_facts.

(** ** [YAMLStringFormatter] *)

Section YAMLStringFormatter_facts.
Context {SubEdit : Type}.
Variable is_Match : SubEdit -> bool.
Variable is_Insert : SubEdit -> bool.
Variable from_node_object : SubEdit -> PyStr.str.

(** X17: [write_start_quote] sets [has_newline] exactly when one of the
    sub-edits is a [Match] or an [Insert] whose string holds a line feed;
    sub-edits of other kinds never switch to the block style. *)
Theorem scan_has_newline_exists (sub_edits : list SubEdit) :
  scan_has_newline is_Match is_Insert from_node_object sub_edits = true
  <-> exists sub_edit,
        In sub_edit sub_edits
        /\ (is_Match sub_edit = true \/ is_Insert sub_edit = true)
        /\ has_linefeed (from_node_object sub_edit) = true.
Proof.
  induction sub_edits as [|e rest IH]; simpl.
  - split; [discriminate|intros (x & [] & _)].
  - destruct (is_Match e) eqn:Hm, (is_Insert e) eqn:Hi,
      (has_linefeed (from_node_object e)) eqn:Hl; simpl;
      try (split; [intros _; exists e; auto|reflexivity]).
    all: rewrite IH; split;
      [intros (x & Hx & Hk & Hf); exists x; auto
      |intros (x & [<-|Hx] & Hk & Hf);
       [rewrite ?Hm, ?Hi, ?Hl in *; intuition discriminate
       |exists x; auto]].
Qed.


End YAMLStringFormatter_facts.

(** * Examples *)

(** ** [XMLElementEdit.tighten_bounds] on [<x a="1">ab</x>] against
    [<x a="22">abcd</x>] *)

(** C1 as stated fails: the tag edit is definitive and the attribute edit is
    the first sub-edit, in the order of iteration, whose bounds are not
    definitive, but [tighten_bounds] leaves the attribute edit alone and
    tightens the text edit. *)
Lemma XMLElementEdit_tighten_bounds_not_iteration_order :
  let result := XMLElementEdit_tighten_bounds leaf_tighten_bounds
                  x_ab_to_x_abcd in
  map leaf_bounds (XMLElementEdit_edits x_ab_to_x_abcd)
  = [mkRange 0 0; mkRange 0 5; mkRange 2 4; mkRange 0 0]
  /\ fst result = true
  /\ map leaf_bounds (XMLElementEdit_edits (snd result))
     = [mkRange 0 0; mkRange 0 5; mkRange 2 3; mkRange 0 0]
  /\ attrib_edit (snd result) = attrib_edit x_ab_to_x_abcd
  /\ (fst result, XMLElementEdit_edits (snd result))
     <> tighten_first_non_definitive leaf_bounds leaf_tighten_bounds
          (XMLElementEdit_edits x_ab_to_x_abcd).
Proof.
  cbv zeta. repeat split; try (vm_compute; reflexivity).
  intros Heq.
  apply (f_equal (fun r => map leaf_bounds (snd r))) in Heq.
  vm_compute in Heq. discriminate Heq.
Qed.

Lemma XMLElementEdit_tighten_bounds_first_witness :
  Forall (keeps_contract leaf_bounds leaf_tighten_bounds)
    (tighten_order x_ab_to_x_abcd)
  /\ (fst (XMLElementEdit_tighten_bounds leaf_tighten_bounds x_ab_to_x_abcd),
      tighten_order
        (snd (XMLElementEdit_tighten_bounds leaf_tighten_bounds
                x_ab_to_x_abcd)))
     = tighten_first_non_definitive leaf_bounds leaf_tighten_bounds
         (tighten_order x_ab_to_x_abcd).
Proof.
  assert (Hc : Forall (keeps_contract leaf_bounds leaf_tighten_bounds)
                 (tighten_order x_ab_to_x_abcd)).
  { repeat constructor; vm_compute; reflexivity. }
  split; [exact Hc|].
  apply (XMLElementEdit_tighten_bounds_first leaf_bounds leaf_tighten_bounds
           x_ab_to_x_abcd).
  exact Hc.
Defined.

(** ** [==] on [<x>t</x>] and [<x> t </x>] *)

(** C2 as stated fails: tags, attributes and children are equal and the
    texts differ, yet [==] is [True]. *)
Lemma XMLElement_eq_ignores_outer_whitespace :
  StringNode_eq (tag (fields x_t_spaced)) (tag (fields x_t)) = true
  /\ @DictNode_eq leaf_containers (attrib (fields x_t_spaced))
       (attrib (fields x_t)) = true
  /\ @ListNode_eq leaf_containers (_children (fields x_t_spaced))
       (_children (fields x_t)) = true
  /\ option_map (fun t => object (fields t)) (text (fields x_t))
     <> option_map (fun t => object (fields t)) (text (fields x_t_spaced))
  /\ XMLElement_eq x_t (XMLN x_t_spaced) = true.
Proof.
  repeat split; try (vm_compute; reflexivity).
  vm_compute. discriminate.
Qed.

Lemma XMLElement_eq_stripped_text_witness :
  stripped_text x_t_spaced = stripped_text x_t
  /\ XMLElement_eq x_t (XMLN x_t_spaced) = true.
Proof.
  split; [reflexivity|].
  apply (XMLElement_eq_stripped_text x_t x_t_spaced); reflexivity.
Defined.

(** ** The driver on [<x a="1">ab</x>] against [<x a="22">abcd</x>] *)

Lemma diff_stops_exactly_witness :
  stops_after (H := leaf_Edit) (leaf_node_edits x_ab x_abcd) 7
    (tightened (H := leaf_Edit) 7 (leaf_node_edits x_ab x_abcd))
  /\ bounds (Edit := leaf_Edit)
       (tightened (H := leaf_Edit) 7 (leaf_node_edits x_ab x_abcd))
     = mkRange 2 2.
Proof.
  split; [|vm_compute; reflexivity].
  apply (proj1 (diff_stops_exactly (H := leaf_Edit) leaf_make_edited
                  leaf_node_edits x_ab x_abcd x_ab
                  (tightened (H := leaf_Edit) 7 (leaf_node_edits x_ab x_abcd))
                  7)).
  exists 8%nat. vm_compute. reflexivity.
Defined.

(** Once [tighten_bounds] returns an edit unchanged, further calls change
    nothing. *)
Lemma tightened_fixed {E : Type} `{Edit E} (edit : E) :
  snd (tighten_bounds edit) = edit -> forall k, tightened k edit = edit.
Proof.
  intros Hfix k. induction k as [|k IH]; simpl; [reflexivity|].
  rewrite Hfix. exact IH.
Qed.

(** ** The driver on [<x>t</x>] against [<y>u</y>] *)

Lemma diff_terminates_witness :
  exists fuel final calls,
    diff (H := leaf_Edit) leaf_make_edited leaf_node_edits fuel x_t y_u
    = Some (leaf_make_edited x_t, final, calls)
    /\ Z.of_nat calls <= 2 * (leaf_total_size x_t + leaf_total_size y_u) + 1.
Proof.
  apply (diff_terminates (H := leaf_Edit) leaf_make_edited leaf_node_edits
           leaf_total_size x_t y_u).
  - intros k. do 3 (destruct k as [|k]; [vm_compute; intuition discriminate|]).
    rewrite !tightened_S.
    rewrite tightened_fixed by (vm_compute; reflexivity).
    vm_compute; intuition discriminate.
  - intros k. do 3 (destruct k as [|k]; [vm_compute; intuition discriminate|]).
    rewrite !tightened_S.
    rewrite tightened_fixed by (vm_compute; reflexivity).
    vm_compute; intuition discriminate.
Defined.

(** ** [edits] on [<x>t</x>] against [<x> t </x>] *)

Lemma XMLElement_edits_equal_witness :
  XMLElement_eq x_t (XMLN x_t_spaced) = true
  /\ @XMLElement_edits leaf_containers leaf_collaborators x_t
       (XMLN x_t_spaced)
     = Some (Match (XMLN x_t) (XMLN x_t_spaced) 0)
  /\ tighten_loop (H := leaf_Edit) 1 (Match (XMLN x_t) (XMLN x_t_spaced) 0)
     = Some (Match (XMLN x_t) (XMLN x_t_spaced) 0, 0%nat).
Proof.
  assert (Heq : XMLElement_eq x_t (XMLN x_t_spaced) = true) by reflexivity.
  destruct (@XMLElement_edits_equal leaf_containers leaf_collaborators x_t
              (XMLN x_t_spaced) Heq) as (Hedits & _ & _ & Hloop).
  split; [exact Heq|]. split; [exact Hedits|]. exact (Hloop 0%nat).
Defined.

(** ** Sizes of [<x a="1">ab</x>] *)

Lemma XMLElement_total_size_parts_witness :
  _total_size x_ab = None
  /\ fst (total_size (@XMLElement_calculate_total_size leaf_containers) x_ab)
     = parts_total_size x_ab
  /\ parts_total_size x_ab = 5.
Proof.
  split; [reflexivity|]. split; [|reflexivity].
  exact (proj1 (@XMLElement_total_size_parts leaf_containers x_ab eq_refl)).
Defined.

Lemma total_size_computed_once_witness :
  let first :=
    total_size (@XMLElement_calculate_total_size leaf_containers) x_ab in
  fst first = 5
  /\ _total_size (snd first) = Some 5
  /\ total_size (@XMLElement_calculate_total_size leaf_containers) (snd first)
     = (5, snd first).
Proof.
  destruct (total_size_computed_once
              (@XMLElement_calculate_total_size leaf_containers) x_ab eq_refl)
    as (Hv & Hstored & _ & Hlater).
  split; [exact Hv|]. split; [exact Hstored|]. apply Hlater.
Defined.

(** ** [explode_edits] and [__init__] *)

Lemma explode_edits_spec_witness :
  @explode_edits leaf_containers (ElementEdit x_ab_to_x_abcd)
  = List.concat
      (map (@explode_edits leaf_containers)
         (XMLElementEdit_edits x_ab_to_x_abcd))
  /\ @explode_edits leaf_containers (Match (XMLN x_t) (XMLN x_t_spaced) 0)
     = [Match (XMLN x_t) (XMLN x_t_spaced) 0].
Proof.
  split.
  - apply (proj1 (proj2 (@explode_edits_spec leaf_containers
                           (ElementEdit x_ab_to_x_abcd)))).
    reflexivity.
  - apply (proj1 (@explode_edits_spec leaf_containers
                    (Match (XMLN x_t) (XMLN x_t_spaced) 0))).
    reflexivity.
Defined.

Lemma XMLElementEdit_init_text_edit_witness :
  text_edit (@XMLElementEdit_init leaf_containers leaf_collaborators
               x_ab x_abcd)
  = Some (leaf_StringNode_edits (string_node "ab") (string_node "abcd"))
  /\ text_edit (@XMLElementEdit_init leaf_containers leaf_collaborators
                  x_empty x_t)
     = Some (Insert (StringN (string_node "t")) (XMLN x_empty))
  /\ text_edit (@XMLElementEdit_init leaf_containers leaf_collaborators
                  x_t x_empty)
     = Some (Remove (StringN (string_node "t")) (XMLN x_t))
  /\ text_edit (@XMLElementEdit_init leaf_containers leaf_collaborators
                  x_empty x_empty)
     = None.
Proof.
  split; [|split; [|split]].
  - apply (proj1 (@XMLElementEdit_init_text_edit leaf_containers
                    leaf_collaborators x_ab x_abcd)); reflexivity.
  - apply (proj1 (proj2 (@XMLElementEdit_init_text_edit leaf_containers
                           leaf_collaborators x_empty x_t))); reflexivity.
  - apply (proj1 (proj2 (proj2 (@XMLElementEdit_init_text_edit
                                  leaf_containers leaf_collaborators
                                  x_t x_empty)))); reflexivity.
  - apply (proj1 (proj2 (proj2 (proj2 (@XMLElementEdit_init_text_edit
                                         leaf_containers leaf_collaborators
                                         x_empty x_empty))))); reflexivity.
Defined.

(** ** More on [==] *)

Lemma XMLElement_eq_padded_text_witness :
  XMLElement_eq x_t (XMLN x_t_spaced) = true.
Proof.
  apply (@XMLElement_eq_padded_text leaf_containers x_t x_t_spaced
           (string_node "t") (string_node " t ")
           (PyStr.of_string " ") (PyStr.of_string " "));
    reflexivity.
Defined.

Lemma XMLElement_eq_blank_text_witness :
  XMLElement_eq (leaf_build_tree_element true et_x_none)
    (XMLN (leaf_build_tree_element true et_x_blank)) = true.
Proof.
  apply (@XMLElement_eq_blank_text leaf_containers
           (leaf_build_tree_element true et_x_none)
           (leaf_build_tree_element true et_x_blank)
           (set_quoted false (string_node " ")));
    reflexivity.
Defined.

Lemma XMLElement_eq_sym_witness :
  XMLElement_eq x_ab (XMLN x_abcd) = XMLElement_eq x_abcd (XMLN x_ab).
Proof.
  apply (@XMLElement_eq_sym leaf_containers x_ab x_abcd); reflexivity.
Defined.

Lemma XMLElement_edits_self_witness :
  @XMLElement_edits leaf_containers leaf_collaborators x_ab (XMLN x_ab)
  = Some (Match (XMLN x_ab) (XMLN x_ab) 0).
Proof.
  apply (@XMLElement_edits_self leaf_containers leaf_collaborators x_ab);
    reflexivity.
Defined.

(** ** More on the edit of [<x a="1">ab</x>] against [<x a="22">abcd</x>] *)

Lemma XMLElementEdit_never_widens_witness :
  never_widens (XMLElementEdit_bounds leaf_bounds)
    (XMLElementEdit_tighten_bounds leaf_tighten_bounds) x_ab_to_x_abcd.
Proof.
  apply (@XMLElementEdit_never_widens leaf_containers _ leaf_bounds
           leaf_tighten_bounds x_ab_to_x_abcd).
  intros e Hin. simpl in Hin.
  destruct Hin as [<-|[<-|[<-|[<-|[]]]]];
    vm_compute; split; discriminate.
Defined.

Lemma XMLElementEdit_keeps_contract_witness :
  keeps_contract (XMLElementEdit_bounds leaf_bounds)
    (XMLElementEdit_tighten_bounds leaf_tighten_bounds) x_ab_to_x_abcd.
Proof.
  apply (@XMLElementEdit_keeps_contract leaf_containers _ leaf_bounds
           leaf_tighten_bounds x_ab_to_x_abcd).
  intros e Hin. simpl in Hin.
  destruct Hin as [<-|[<-|[<-|[<-|[]]]]];
    (split; [vm_compute; reflexivity|vm_compute; discriminate]).
Defined.

Lemma diff_ends_definitive_witness :
  let final := tightened (H := leaf_Edit) 2 (leaf_node_edits x_t y_u) in
  valid (Edit := leaf_Edit) final = false
  \/ definitive (bounds (Edit := leaf_Edit) final) = true.
Proof.
  apply (@diff_ends_definitive _ leaf_Edit _ leaf_make_edited
           leaf_node_edits 3 x_t y_u x_t
           (tightened (H := leaf_Edit) 2 (leaf_node_edits x_t y_u)) 2).
  - intros k. do 3 (destruct k as [|k]; [vm_compute; reflexivity|]).
    rewrite !tightened_S.
    rewrite tightened_fixed by (vm_compute; reflexivity).
    vm_compute; reflexivity.
  - vm_compute. reflexivity.
Defined.

Lemma XMLElement_total_size_children_witness :
  fst (total_size (@XMLElement_calculate_total_size leaf_containers) x_ab)
  = fold_right Z.add 0
      (map (@Node_total_size leaf_containers) (XMLElement_children x_ab)).
Proof.
  apply (@XMLElement_total_size_children leaf_containers x_ab).
  reflexivity.
Defined.

(** ** [__str__], [build_tree] and the YAML quotes *)

Lemma XMLElementObj_str_item_escaped_witness :
  ~ In 34%N (html_escape [97; 34; 60; 98]%N)
  /\ XMLElementObj_str_item [] (PyStr.of_string "k", [97; 34; 60; 98]%N)
     = PyStr.of_string " k" ++ [61; 34]%N
       ++ PyStr.of_string "a&quot;&lt;b" ++ [34]%N.
Proof.
  destruct (XMLElementObj_str_item_escaped []
              (PyStr.of_string "k", [97; 34; 60; 98]%N)) as [Hitem Hno].
  split.
  - intros Hin. apply Hno in Hin. tauto.
  - rewrite Hitem. reflexivity.
Defined.

Lemma build_tree_text_witness :
  text (fields (leaf_build_tree_element true et_x_blank))
  = Some (set_quoted false (string_node " "))
  /\ text (fields (leaf_build_tree_element true et_x_none)) = None.
Proof.
  split; [reflexivity|].
  apply (proj1 (proj2 (@build_tree_text leaf_containers true leaf_from_dict
                         leaf_from_dict (fun d => d) (fun l => l)
                         (fun _ => mkTreeNode None tt) (fun d => d)
                         leaf_unquote_keys (fun d => d) true
                         (PyStr.of_string "x")
                         [(PyStr.of_string "a", PyStr.of_string "1")]
                         None []))).
  left. reflexivity.
Defined.

Lemma build_tree_blank_text_eq_witness :
  XMLElement_eq (leaf_build_tree_element true et_x_none)
    (XMLN (leaf_build_tree_element true et_x_blank)) = true.
Proof.
  apply (@build_tree_blank_text_eq leaf_containers true leaf_from_dict
           leaf_from_dict (fun d => d) (fun l => l)
           (fun _ => mkTreeNode None tt) (fun d => d)
           leaf_unquote_keys (fun d => d) true
           (PyStr.of_string "x")
           [(PyStr.of_string "a", PyStr.of_string "1")]
           (PyStr.of_string " ") []).
  - split; reflexivity.
  - reflexivity.
Defined.

Lemma scan_has_newline_exists_witness :
  scan_has_newline demo_is_Match demo_is_Insert demo_object demo_sub_edits
  = true.
Proof.
  apply (proj2 (scan_has_newline_exists demo_is_Match demo_is_Insert
                  demo_object demo_sub_edits)).
  exists (1%nat, [98; 10]%N). split; [|split].
  - right. right. left. reflexivity.
  - right. reflexivity.
  - reflexivity.
Defined.

